(** * Resumable upgrade download: a model of [psiphon/upgradeDownload.go]

    [DownloadUpgrade] is a straight-line Go function whose whole meaning is
    in its effects: it stats, opens, appends to and renames files, talks to
    an HTTP client and emits notices.  The development below embeds it as a
    state-passing program over an explicit [World] (file system, descriptor
    table, log of the operations performed, history of file-system states)
    and proves the properties of the design document about that program.

    Layout: data model, the operating-system and library primitives the
    function calls, the function itself, then the theorems. *)

From Stdlib Require Import ZArith String List Lia.
From stdpp Require Import base gmap list strings pretty.

Local Open Scope string_scope.
Local Open Scope list_scope.

(** ** Data *)

(** File contents and response bodies are byte strings. *)
Abbreviation bytes := (list Byte.byte).

(** The file system maps a path to the bytes stored under it. *)
Abbreviation FS := (gmap string bytes).

(** Go [error] values.  [EnvError] stands for whatever the operating system
    or the network reports; [Errorf] is [fmt.Errorf].  [ContextError] is
    modelled from the spec: the function is defined elsewhere in the
    package, and the design document has every error "wrapped with enough
    operational context", so it is a constructor around the error. *)
Inductive error : Type :=
| EnvError (what : string)
| ErrNotExist
| ErrClosed
| ErrShortWrite
| Errorf (msg : string)
| ContextError (e : error).

(** A Go pair [(value, err)] with exactly one side meaningful. *)
Inductive result (A : Type) : Type :=
| Ok (a : A)
| Err (e : error).
Arguments Ok {A} a.
Arguments Err {A} e.

(** The two fields of [Config] that [DownloadUpgrade] reads. *)
Record Config : Type := {
  UpgradeDownloadFilename : string;
  UpgradeDownloadUrl : string
}.

(** [http.Request]: method, URL and the header lines added so far. *)
Record Request : Type := {
  Method : string;
  URL : string;
  Header : list (string * string)
}.

(** A response body is a stream: [Read] delivers the chunks one after the
    other and then ends, with [io.EOF] ([read_err = None]) or with an error. *)
Record ReadCloser : Type := {
  chunks : list bytes;
  read_err : option error
}.

Record Response : Type := {
  StatusCode : Z;
  Body : ReadCloser
}.

(** [http.Client], as far as it is used here: [Do]. *)
Record HttpClient : Type := {
  Do : Request → result Response
}.

Definition StatusPartialContent : Z := 206.
Definition StatusRequestedRangeNotSatisfiable : Z := 416.

(** Flags of [os.OpenFile] (the values of package [syscall] on linux). *)
Definition O_WRONLY : Z := 1.
Definition O_CREATE : Z := 64.
Definition O_TRUNC : Z := 512.
Definition O_APPEND : Z := 1024.

Definition has_flag (flag bit : Z) : bool := negb (Z.land flag bit =? 0)%Z.

(** An [*os.File] is an index into the descriptor table. *)
Record File : Type := { fd : nat }.

Record FileDesc : Type := {
  fd_name : string;
  fd_flag : Z;
  fd_off : nat
}.

Record FileInfo : Type := { Size : Z }.

(** Everything the function does to the outside is logged, in order. *)
Inductive Event : Type :=
| EvStat (name : string) (found : bool)
| EvMakeTunneledHttpClient (timeout : Z) (ok : bool)
| EvOpenFile (name : string) (flag perm : Z) (ok : bool)
| EvFileStat (name : string) (ok : bool)
| EvNewRequest (method url : string) (ok : bool)
| EvDo (req : Request) (status : option Z)
| EvBodyClose
| EvWrite (name : string) (p : bytes) (ok : bool)
| EvFileClose (name : option string) (ok : bool)
| EvRename (oldpath newpath : string) (ok : bool)
| EvNoticeInfo (msg : string)
| EvNoticeClientUpgradeDownloaded (filename : string).

(** The state threaded through the program.  [hist] collects every state the
    file system goes through: whatever changes [fs] goes through [set_fs]. *)
Record World : Type := {
  fs : FS;
  fds : list (option FileDesc);
  trace : list Event;
  hist : list FS
}.

(** What the surroundings decide: the faults of the system calls.  A write
    fault [Some (k, e)] means that the call stores only the first [k] bytes
    it was given and returns [e]; it may depend on the file's size. *)
Record Env : Type := {
  open_fault : option error;
  fstat_fault : option error;
  url_fault : string → option error;
  write_fault : nat → bytes → option (nat * error);
  close_fault : option error;
  rename_fault : option error
}.

(** ** The state monad of the embedding *)

Definition Op (A : Type) : Type := World → A * World.

Definition ret {A} (a : A) : Op A := fun w => (a, w).

Definition bind {A B} (m : Op A) (k : A → Op B) : Op B :=
  fun w => let '(a, w') := m w in k a w'.

Notation "x <- m ; k" := (bind m (fun x => k))
  (at level 20, m at level 100, k at level 200, only parsing).
Notation "' p <- m ; k" := (bind m (fun x => let 'p := x in k))
  (at level 20, p pattern, m at level 100, k at level 200, only parsing).
Notation "m ;;; k" := (bind m (fun _ => k))
  (at level 100, k at level 200, only parsing, right associativity).

(** [v, err := f(); if err != nil { return ContextError(err) }] *)
Definition try {A} (m : Op (result A)) (k : A → Op (option error))
  : Op (option error) :=
  r <- m;
  match r with
  | Ok a => k a
  | Err e => ret (Some (ContextError e))
  end.

Notation "x <-? m ; k" := (try m (fun x => k))
  (at level 20, m at level 100, k at level 200, only parsing).

(** [if err != nil { return ContextError(err) }] *)
Definition check (err : option error) (k : Op (option error))
  : Op (option error) :=
  match err with
  | Some e => ret (Some (ContextError e))
  | None => k
  end.

(** [defer d]: [d] runs when the rest of the function returns, whatever it
    returns; the value [d] returns is dropped. *)
Definition defer {A B} (d : Op A) (k : Op B) : Op B :=
  fun w => let '(r, w') := k w in (r, snd (d w')).

Definition log (e : Event) : Op unit :=
  fun w => (tt, {| fs := fs w; fds := fds w;
                   trace := trace w ++ [e]; hist := hist w |}).

Definition set_fs (f : FS) : Op unit :=
  fun w => (tt, {| fs := f; fds := fds w;
                   trace := trace w; hist := hist w ++ [f] |}).

Definition set_fds (t : list (option FileDesc)) : Op unit :=
  fun w => (tt, {| fs := fs w; fds := t;
                   trace := trace w; hist := hist w |}).

Definition get_fs : Op FS := fun w => (fs w, w).
Definition get_fds : Op (list (option FileDesc)) := fun w => (fds w, w).

(** ** Primitives: package [os] *)

(** [os.Stat(name)]: succeeds exactly when something is stored at [name]. *)
Definition os_Stat (name : string) : Op (option error) :=
  f <- get_fs;
  match f !! name with
  | Some _ => log (EvStat name true);;; ret None
  | None => log (EvStat name false);;; ret (Some ErrNotExist)
  end.

(** [os.OpenFile(name, flag, perm)].  A missing file is created when
    [O_CREATE] is set, an existing one is emptied only when [O_TRUNC] is. *)
Definition os_OpenFile (env : Env) (name : string) (flag perm : Z)
  : Op (result File) :=
  match open_fault env with
  | Some e => log (EvOpenFile name flag perm false);;; ret (Err e)
  | None =>
    f <- get_fs;
    match f !! name with
    | None =>
      if has_flag flag O_CREATE then
        set_fs (<[name := []]> f) ;;;
        t <- get_fds;
        set_fds (t ++ [Some {| fd_name := name; fd_flag := flag; fd_off := 0 |}]) ;;;
        log (EvOpenFile name flag perm true) ;;;
        ret (Ok {| fd := length t |})
      else
        log (EvOpenFile name flag perm false);;; ret (Err ErrNotExist)
    | Some c =>
      (if has_flag flag O_TRUNC then set_fs (<[name := []]> f) else ret tt) ;;;
      t <- get_fds;
      set_fds (t ++ [Some {| fd_name := name; fd_flag := flag; fd_off := 0 |}]) ;;;
      log (EvOpenFile name flag perm true) ;;;
      ret (Ok {| fd := length t |})
    end
  end.

(** The content of a file after [q] is written through descriptor [d]:
    at the end in append mode, over the bytes at the offset otherwise. *)
Definition stored (d : FileDesc) (c q : bytes) : bytes :=
  if has_flag (fd_flag d) O_APPEND then c ++ q
  else take (fd_off d) c ++ q ++ drop (fd_off d + length q) c.

(** [file.Write(p)] returns the number of bytes stored and an error when
    that number is not [len(p)]. *)
Definition File_Write (env : Env) (file : File) (p : bytes)
  : Op (nat * option error) :=
  t <- get_fds;
  match t !! fd file with
  | Some (Some d) =>
    f <- get_fs;
    let c := default [] (f !! fd_name d) in
    let '(q, err) :=
      match write_fault env (length c) p with
      | None => (p, None)
      | Some (k, e) => (take k p, Some e)
      end in
    set_fs (<[fd_name d := stored d c q]> f) ;;;
    set_fds (<[fd file := Some {| fd_name := fd_name d; fd_flag := fd_flag d;
                                  fd_off := fd_off d + length q |}]> t) ;;;
    log (EvWrite (fd_name d) q (bool_decide (err = None))) ;;;
    ret (length q, err)
  | _ => ret (0, Some ErrClosed)
  end.

(** [file.Stat()] *)
Definition File_Stat (env : Env) (file : File) : Op (result FileInfo) :=
  t <- get_fds;
  match t !! fd file with
  | Some (Some d) =>
    match fstat_fault env with
    | Some e => log (EvFileStat (fd_name d) false);;; ret (Err e)
    | None =>
      f <- get_fs;
      log (EvFileStat (fd_name d) true) ;;;
      ret (Ok {| Size := Z.of_nat (length (default [] (f !! fd_name d))) |})
    end
  | _ => ret (Err ErrClosed)
  end.

(** [file.Close()]: the descriptor is released even when the call reports
    an error; closing a closed file only returns an error. *)
Definition File_Close (env : Env) (file : File) : Op (option error) :=
  t <- get_fds;
  match t !! fd file with
  | Some (Some d) =>
    set_fds (<[fd file := None]> t) ;;;
    match close_fault env with
    | Some e => log (EvFileClose (Some (fd_name d)) false);;; ret (Some e)
    | None => log (EvFileClose (Some (fd_name d)) true);;; ret None
    end
  | _ => log (EvFileClose None false);;; ret (Some ErrClosed)
  end.

(** [os.Rename(oldpath, newpath)]: all or nothing. *)
Definition os_Rename (env : Env) (oldpath newpath : string)
  : Op (option error) :=
  match rename_fault env with
  | Some e => log (EvRename oldpath newpath false);;; ret (Some e)
  | None =>
    f <- get_fs;
    match f !! oldpath with
    | None => log (EvRename oldpath newpath false);;; ret (Some ErrNotExist)
    | Some c =>
      set_fs (<[newpath := c]> (delete oldpath f)) ;;;
      log (EvRename oldpath newpath true) ;;;
      ret None
    end
  end.

(** ** Primitives: packages [net/http] and [io] *)

(** [http.NewRequest(method, url, nil)] *)
Definition http_NewRequest (env : Env) (method url : string)
  : Op (result Request) :=
  match url_fault env url with
  | Some e => log (EvNewRequest method url false);;; ret (Err e)
  | None =>
    log (EvNewRequest method url true) ;;;
    ret (Ok {| Method := method; URL := url; Header := [] |})
  end.

(** [request.Header.Add(key, value)] *)
Definition Header_Add (request : Request) (key value : string) : Request :=
  {| Method := Method request; URL := URL request;
     Header := Header request ++ [(key, value)] |}.

(** [httpClient.Do(request)] *)
Definition Client_Do (httpClient : HttpClient) (request : Request)
  : Op (result Response) :=
  match Do httpClient request with
  | Ok response =>
    log (EvDo request (Some (StatusCode response)));;; ret (Ok response)
  | Err e => log (EvDo request None);;; ret (Err e)
  end.

(** [response.Body.Close()] *)
Definition Body_Close (body : ReadCloser) : Op unit := log EvBodyClose.

(** Go's [int64]: two's complement on 64 bits. *)
Definition int64 (z : Z) : Z := ((z + 2 ^ 63) mod 2 ^ 64 - 2 ^ 63)%Z.

(** Modelled from the spec: [NewSyncFileWriter] is defined in a file of the
    package that is not at hand.  The design document has the body streamed
    "appending to the Partial File", so the writer's [Write] is the file's;
    a failed intermediate sync is one of the faults [write_fault] covers. *)
Record SyncFileWriter : Type := { sfw_file : File }.

Definition NewSyncFileWriter (file : File) : SyncFileWriter :=
  {| sfw_file := file |}.

Definition SyncFileWriter_Write (env : Env) (writer : SyncFileWriter)
  (p : bytes) : Op (nat * option error) :=
  File_Write env (sfw_file writer) p.

(** The loop of [io.Copy(dst, src)]: read a chunk, write it, count it;
    stop at the first write error, short write, read error or at the end. *)
Fixpoint copy_loop (env : Env) (dst : SyncFileWriter) (src : list bytes)
  (er : option error) (written : Z) : Op (Z * option error) :=
  match src with
  | [] => ret (written, er)
  | buf :: rest =>
    let nr := length buf in
    if (0 <? nr)%nat then
      '(nw, ew) <- SyncFileWriter_Write env dst buf;
      let written := if (0 <? nw)%nat then int64 (written + Z.of_nat nw)
                     else written in
      match ew with
      | Some e => ret (written, Some e)
      | None =>
        if negb (nr =? nw)%nat then ret (written, Some ErrShortWrite)
        else copy_loop env dst rest er written
      end
    else copy_loop env dst rest er written
  end.

Definition io_Copy (env : Env) (dst : SyncFileWriter) (src : ReadCloser)
  : Op (Z * option error) :=
  copy_loop env dst (chunks src) (read_err src) 0%Z.

(** ** Primitives: notices *)

(** Modelled from the spec: [NoticeInfo] and
    [NoticeClientUpgradeDownloaded] are defined elsewhere in the package.
    The design document has them emit events for an external collaborator:
    they add an entry to the log, [NoticeInfo(format, args...)] with its
    message formatted. *)
Definition NoticeInfo (msg : string) : Op unit := log (EvNoticeInfo msg).

Definition NoticeClientUpgradeDownloaded (filename : string) : Op unit :=
  log (EvNoticeClientUpgradeDownloaded filename).

(** ** The function *)

Section DownloadUpgrade.

(** Declarations of the package that [upgradeDownload.go] uses and does
    not define: the tunnel type, the timeout constant and the constructor
    of the tunneled client. *)
Variable Tunnel : Type.
Variable DOWNLOAD_UPGRADE_TIMEOUT : Z.
Variable MakeTunneledHttpClient_impl : Config → Tunnel → Z → result HttpClient.

Variable env : Env.

Definition MakeTunneledHttpClient (config : Config) (tunnel : Tunnel)
  (timeout : Z) : Op (result HttpClient) :=
  match MakeTunneledHttpClient_impl config tunnel timeout with
  | Ok c => log (EvMakeTunneledHttpClient timeout true);;; ret (Ok c)
  | Err e => log (EvMakeTunneledHttpClient timeout false);;; ret (Err e)
  end.

(** [fmt.Sprintf("%s.%s.part", filename, version)] *)
Definition partialFilename_of (filename version : string) : string :=
  filename +:+ "." +:+ version +:+ ".part".

(** [fmt.Sprintf("bytes=%d-", size)] *)
Definition range_of (size : Z) : string := "bytes=" +:+ pretty size +:+ "-".

Definition DownloadUpgrade (config : Config) (clientUpgradeVersion : string)
  (tunnel : Tunnel) : Op (option error) :=
  (* Check if complete file already downloaded *)
  err <- os_Stat (UpgradeDownloadFilename config);
  if err is None then
    NoticeClientUpgradeDownloaded (UpgradeDownloadFilename config) ;;;
    ret None
  else
  httpClient <-? MakeTunneledHttpClient config tunnel DOWNLOAD_UPGRADE_TIMEOUT;
  let partialFilename :=
    partialFilename_of (UpgradeDownloadFilename config) clientUpgradeVersion in
  file <-? os_OpenFile env partialFilename
             (Z.lor (Z.lor O_CREATE O_APPEND) O_WRONLY) 384 (* 0600 *);
  defer (File_Close env file) (
    fileInfo <-? File_Stat env file;
    request <-? http_NewRequest env "GET" (UpgradeDownloadUrl config);
    let request := Header_Add request "Range" (range_of (Size fileInfo)) in
    r <- Client_Do httpClient request;
    (* The resumeable download may ask for bytes past the resource range
       since it doesn't store the "completed download" state. In this case,
       the HTTP server returns 416. Otherwise, we expect 206. *)
    r <- match r with
         | Ok response =>
           if negb (StatusCode response =? StatusPartialContent)%Z &&
              negb (StatusCode response =? StatusRequestedRangeNotSatisfiable)%Z
           then
             Body_Close (Body response) ;;;
             ret (Err (Errorf ("unexpected response status code: " +:+
                               pretty (StatusCode response))))
           else ret (Ok response)
         | Err e => ret (Err e)
         end;
    response <-? ret r;
    defer (Body_Close (Body response)) (
      '(n, err) <- io_Copy env (NewSyncFileWriter file) (Body response);
      check err (
      NoticeInfo ("client upgrade downloaded bytes: " +:+ pretty n) ;;;
      (* Ensure the file is flushed to disk. The deferred close
         will be a noop when this succeeds. *)
      err <- File_Close env file;
      check err (
      err <- os_Rename env partialFilename (UpgradeDownloadFilename config);
      check err (
      NoticeClientUpgradeDownloaded (UpgradeDownloadFilename config) ;;;
      ret None))))).

(** A run from a file system [f]: nothing open, nothing logged yet. *)
Definition initial (f : FS) : World :=
  {| fs := f; fds := []; trace := []; hist := [f] |}.

Definition run (config : Config) (clientUpgradeVersion : string)
  (tunnel : Tunnel) (f : FS) : option error * World :=
  DownloadUpgrade config clientUpgradeVersion tunnel (initial f).

End DownloadUpgrade.

(** ** Auxiliary notions for the statements *)

(** The log entries and the file-system states that a sequence of writes
    [(payload, success)] to the file [name] leaves behind. *)
Definition write_events (name : string) (ws : list (bytes * bool))
  : list Event :=
  (fun p => EvWrite name (fst p) (snd p)) <$> ws.

Fixpoint snapshots (name : string) (f : FS) (c : bytes) (qs : list bytes)
  : list FS :=
  match qs with
  | [] => []
  | q :: qs => <[name := c ++ q]> f :: snapshots name f (c ++ q) qs
  end.

Definition is_notice (e : Event) : bool :=
  match e with
  | EvNoticeInfo _ | EvNoticeClientUpgradeDownloaded _ => true
  | _ => false
  end.

Definition is_write (e : Event) : bool :=
  match e with EvWrite _ _ _ => true | _ => false end.

Definition is_rename (e : Event) : bool :=
  match e with EvRename _ _ _ => true | _ => false end.

Definition is_open (e : Event) : bool :=
  match e with EvOpenFile _ _ _ _ => true | _ => false end.

Definition is_network (e : Event) : bool :=
  match e with
  | EvMakeTunneledHttpClient _ _ | EvNewRequest _ _ _ | EvDo _ _
  | EvBodyClose => true
  | _ => false
  end.

(** The entries that change, or may change, the file system. *)
Definition is_fs_write (e : Event) : bool :=
  match e with
  | EvOpenFile _ _ _ _ | EvWrite _ _ _ | EvRename _ _ _ => true
  | _ => false
  end.

(** ** What a run of [DownloadUpgrade] can be *)

(** The file system once the staging file [name] has been opened with
    [O_CREATE] and without [O_TRUNC], and the states gone through. *)
Definition opened (name : string) (f : FS) : FS :=
  match f !! name with
  | Some _ => f
  | None => <[name := []]> f
  end.

Definition created (name : string) (f : FS) : list FS :=
  match f !! name with
  | Some _ => []
  | None => [<[name := []]> f]
  end.

Definition hist_opened (name : string) (f : FS) : list FS :=
  f :: created name f.

(** The request sent when the staging file holds [len] bytes. *)
Definition resume_request (url : string) (len : nat) : Request :=
  {| Method := "GET"; URL := url;
     Header := [("Range", range_of (Z.of_nat len))] |}.

(** The deferred [file.Close()] of a run that returns before it has closed
    the staging file itself. *)
Definition deferred_close (env : Env) (name : string) : Event :=
  EvFileClose (Some name) (bool_decide (close_fault env = None)).

Definition accepted (status : Z) : Prop :=
  status = StatusPartialContent ∨ status = StatusRequestedRangeNotSatisfiable.


Section Outcomes.

Variable Tunnel : Type.
Variable TIMEOUT : Z.
Variable mk : Config → Tunnel → Z → result HttpClient.
Variable env : Env.
Variable config : Config.
Variable version : string.
Variable tunnel : Tunnel.
Variable f0 : FS.

Let final : string := UpgradeDownloadFilename config.
Let url : string := UpgradeDownloadUrl config.
Let part : string := partialFilename_of final version.
Let flag : Z := Z.lor (Z.lor O_CREATE O_APPEND) O_WRONLY.
Let c0 : bytes := default [] (f0 !! part).
Let f1 : FS := opened part f0.
Let req : Request := resume_request url (length c0).

Let close_ev : Event := deferred_close env part.

Let count_msg (ws : list (bytes * bool)) : string :=
  "client upgrade downloaded bytes: " +:+
  pretty (int64 (Z.of_nat (length (concat ws.*1)))).

(** The part of a run that follows a successful open of the staging file:
    result, final file system, log and states gone through. *)
Inductive Download (c : HttpClient)
  : option error → FS → list Event → list FS → Prop :=
| D_stat e :
    fstat_fault env = Some e →
    Download c (Some (ContextError e)) f1
      [EvFileStat part false; close_ev] []
| D_request e :
    fstat_fault env = None → url_fault env url = Some e →
    Download c (Some (ContextError e)) f1
      [EvFileStat part true; EvNewRequest "GET" url false; close_ev] []
| D_transport e :
    fstat_fault env = None → url_fault env url = None →
    Do c req = Err e →
    Download c (Some (ContextError e)) f1
      [EvFileStat part true; EvNewRequest "GET" url true;
       EvDo req None; close_ev] []
| D_status resp :
    fstat_fault env = None → url_fault env url = None →
    Do c req = Ok resp → ¬ accepted (StatusCode resp) →
    Download c
      (Some (ContextError (Errorf ("unexpected response status code: " +:+
                                   pretty (StatusCode resp)))))
      f1
      [EvFileStat part true; EvNewRequest "GET" url true;
       EvDo req (Some (StatusCode resp)); EvBodyClose; close_ev] []
| D_copy resp ws e :
    fstat_fault env = None → url_fault env url = None →
    Do c req = Ok resp → accepted (StatusCode resp) →
    concat ws.*1 `prefix_of` concat (chunks (Body resp)) →
    Download c (Some (ContextError e))
      (<[part := c0 ++ concat ws.*1]> f1)
      (EvFileStat part true :: EvNewRequest "GET" url true ::
       EvDo req (Some (StatusCode resp)) ::
       write_events part ws ++ [EvBodyClose; close_ev])
      (snapshots part f1 c0 ws.*1)
| D_close resp ws e :
    fstat_fault env = None → url_fault env url = None →
    Do c req = Ok resp → accepted (StatusCode resp) →
    concat ws.*1 = concat (chunks (Body resp)) →
    read_err (Body resp) = None →
    close_fault env = Some e →
    Download c (Some (ContextError e))
      (<[part := c0 ++ concat ws.*1]> f1)
      (EvFileStat part true :: EvNewRequest "GET" url true ::
       EvDo req (Some (StatusCode resp)) ::
       write_events part ws ++
       [EvNoticeInfo (count_msg ws); EvFileClose (Some part) false;
        EvBodyClose; EvFileClose None false])
      (snapshots part f1 c0 ws.*1)
| D_rename resp ws e :
    fstat_fault env = None → url_fault env url = None →
    Do c req = Ok resp → accepted (StatusCode resp) →
    concat ws.*1 = concat (chunks (Body resp)) →
    read_err (Body resp) = None →
    close_fault env = None → rename_fault env = Some e →
    Download c (Some (ContextError e))
      (<[part := c0 ++ concat ws.*1]> f1)
      (EvFileStat part true :: EvNewRequest "GET" url true ::
       EvDo req (Some (StatusCode resp)) ::
       write_events part ws ++
       [EvNoticeInfo (count_msg ws); EvFileClose (Some part) true;
        EvRename part final false; EvBodyClose; EvFileClose None false])
      (snapshots part f1 c0 ws.*1)
| D_done resp ws :
    fstat_fault env = None → url_fault env url = None →
    Do c req = Ok resp → accepted (StatusCode resp) →
    concat ws.*1 = concat (chunks (Body resp)) →
    read_err (Body resp) = None →
    close_fault env = None → rename_fault env = None →
    Download c None
      (<[final := c0 ++ concat ws.*1]>
         (delete part (<[part := c0 ++ concat ws.*1]> f1)))
      (EvFileStat part true :: EvNewRequest "GET" url true ::
       EvDo req (Some (StatusCode resp)) ::
       write_events part ws ++
       [EvNoticeInfo (count_msg ws); EvFileClose (Some part) true;
        EvRename part final true; EvNoticeClientUpgradeDownloaded final;
        EvBodyClose; EvFileClose None false])
      (snapshots part f1 c0 ws.*1 ++
       [<[final := c0 ++ concat ws.*1]>
          (delete part (<[part := c0 ++ concat ws.*1]> f1))]).

(** A whole run. *)
Inductive Outcome : option error → World → Prop :=
| Out_present c :
    f0 !! final = Some c →
    Outcome None
      {| fs := f0; fds := [];
         trace := [EvStat final true; EvNoticeClientUpgradeDownloaded final];
         hist := [f0] |}
| Out_client e :
    f0 !! final = None → mk config tunnel TIMEOUT = Err e →
    Outcome (Some (ContextError e))
      {| fs := f0; fds := [];
         trace := [EvStat final false; EvMakeTunneledHttpClient TIMEOUT false];
         hist := [f0] |}
| Out_open c e :
    f0 !! final = None → mk config tunnel TIMEOUT = Ok c →
    open_fault env = Some e →
    Outcome (Some (ContextError e))
      {| fs := f0; fds := [];
         trace := [EvStat final false; EvMakeTunneledHttpClient TIMEOUT true;
                   EvOpenFile part flag 384 false];
         hist := [f0] |}
| Out_download c r f t h :
    f0 !! final = None → mk config tunnel TIMEOUT = Ok c →
    open_fault env = None →
    Download c r f t h →
    Outcome r
      {| fs := f; fds := [None];
         trace := EvStat final false :: EvMakeTunneledHttpClient TIMEOUT true ::
                  EvOpenFile part flag 384 true :: t;
         hist := hist_opened part f0 ++ h |}.

(** The same with the components of the world given by equations. *)

End Outcomes.


(** The world after a run that finds the upgrade file in place: the stat,
    the notice, and nothing else. *)
Definition short_circuit (filename : string) (f : FS) : World :=
  {| fs := f; fds := [];
     trace := [EvStat filename true; EvNoticeClientUpgradeDownloaded filename];
     hist := [f] |}.

Definition is_make (e : Event) : bool :=
  match e with EvMakeTunneledHttpClient _ _ => true | _ => false end.

Definition is_close (e : Event) : bool :=
  match e with EvFileClose _ _ => true | _ => false end.


(** ** Concrete surroundings, for the instances below *)

(** A system in which no call fails. *)
Definition no_faults : Env :=
  {| open_fault := None; fstat_fault := None; url_fault := fun _ => None;
     write_fault := fun _ _ => None; close_fault := None;
     rename_fault := None |}.

Definition example_config : Config :=
  {| UpgradeDownloadFilename := "upgrade";
     UpgradeDownloadUrl := "https://example.org/upgrade" |}.

(** The body of the error document a storage server sends with a 416. *)
Definition invalid_range_body : bytes :=
  [Byte.x3c; Byte.x45; Byte.x72; Byte.x72; Byte.x6f; Byte.x72; Byte.x2f;
   Byte.x3e].

(** A server that holds [resource] and honours [Range: bytes=L-]: a 206
    with the bytes from [L] on when [L] is inside the resource, in two
    chunks; a 416 with an error document otherwise; a 400 when the request
    has no such header. *)
Definition range_server (resource : bytes) : HttpClient :=
  {| Do := fun request =>
       match Header request with
       | [(_, value)] =>
         match List.find (fun L => String.eqb value (range_of (Z.of_nat L)))
                         (seq 0 (length resource)) with
         | Some L =>
           Ok {| StatusCode := StatusPartialContent;
                 Body := {| chunks := [take 2 (drop L resource);
                                       drop 2 (drop L resource)];
                            read_err := None |} |}
         | None =>
           Ok {| StatusCode := StatusRequestedRangeNotSatisfiable;
                 Body := {| chunks := [invalid_range_body];
                            read_err := None |} |}
         end
       | _ => Ok {| StatusCode := 400;
                    Body := {| chunks := []; read_err := None |} |}
       end |}.

(** A server that answers every request with [status] and no body. *)
Definition status_server (status : Z) : HttpClient :=
  {| Do := fun _ => Ok {| StatusCode := status;
                          Body := {| chunks := []; read_err := None |} |} |}.

(** A client whose connection breaks before any answer. *)
Definition broken_client : HttpClient :=
  {| Do := fun _ => Err (EnvError "connection reset") |}.

Definition tunneled (c : HttpClient) : Config → unit → Z → result HttpClient :=
  fun _ _ _ => Ok c.

Definition no_tunnel : Config → unit → Z → result HttpClient :=
  fun _ _ _ => Err (EnvError "tunnel is down").

Definition resource5 : bytes :=
  [Byte.x01; Byte.x02; Byte.x03; Byte.x04; Byte.x05].

(** File systems: nothing yet; two bytes staged for version 42; the whole
    resource staged but not yet renamed; the upgrade in place. *)
Definition fs_empty : FS := ∅.
Definition fs_staged2 : FS := {["upgrade.42.part" := [Byte.x01; Byte.x02]]}.
Definition fs_staged5 : FS := {["upgrade.42.part" := resource5]}.
Definition fs_done : FS := {["upgrade" := resource5]}.

(** A disk with room for [n] bytes in the file being written. *)
Definition disk_full_at (n : nat) : Env :=
  {| open_fault := None; fstat_fault := None; url_fault := fun _ => None;
     write_fault := fun size p =>
       if (n <? size + length p)%nat
       then Some (n - size, EnvError "no space left on device")
       else None;
     close_fault := None; rename_fault := None |}.

(** The worlds these surroundings lead to. *)
Definition resume_world : World :=
  snd (run unit 900 (tunneled (range_server resource5)) no_faults
         example_config "42" tt fs_staged2).

Definition complete_world : World :=
  snd (run unit 900 (tunneled (range_server resource5)) no_faults
           example_config "42" tt fs_staged5).

Definition refused_world : World :=
  snd (run unit 900 (tunneled (status_server 404)) no_faults
           example_config "42" tt fs_staged2).

Definition no_tunnel_world : World :=
  snd (run unit 900 no_tunnel no_faults example_config "42" tt fs_staged2).

Definition disk_full_world : World :=
  snd (run unit 900 (tunneled (range_server resource5)) (disk_full_at 4)
           example_config "42" tt fs_staged2).

(** ** Further notions: what a log shows, causes of failure, servers *)

Definition is_do (e : Event) : bool :=
  match e with EvDo _ _ => true | _ => false end.

(** A request that was answered. *)
Definition is_response (e : Event) : bool :=
  match e with EvDo _ (Some _) => true | _ => false end.

Definition is_body_close (e : Event) : bool :=
  match e with EvBodyClose => true | _ => false end.

(** An open that yields a descriptor, and a close that releases one. *)
Definition is_opened (e : Event) : bool :=
  match e with EvOpenFile _ _ _ true => true | _ => false end.

Definition is_released (e : Event) : bool :=
  match e with EvFileClose (Some _) _ => true | _ => false end.

Section Causes.

Variable Tunnel : Type.
Variable TIMEOUT : Z.
Variable mk : Config → Tunnel → Z → result HttpClient.
Variable env : Env.
Variable config : Config.
Variable version : string.
Variable tunnel : Tunnel.
Variable f0 : FS.

Let final : string := UpgradeDownloadFilename config.
Let url : string := UpgradeDownloadUrl config.
Let part : string := partialFilename_of final version.
Let req : Request := resume_request url (length (default [] (f0 !! part))).

(** The errors that [DownloadUpgrade] can wrap, by the step that fails:
    the construction of the client, the open and the stat of the staging
    file, the construction of the request, the transport, the status of
    the answer, the read of the body, a write to the staging file, its
    close, the rename. *)
Inductive Cause : error → Prop :=
| Cause_client e :
    mk config tunnel TIMEOUT = Err e → Cause e
| Cause_open e :
    open_fault env = Some e → Cause e
| Cause_stat e :
    fstat_fault env = Some e → Cause e
| Cause_request e :
    url_fault env url = Some e → Cause e
| Cause_transport c e :
    mk config tunnel TIMEOUT = Ok c → Do c req = Err e → Cause e
| Cause_status c resp :
    mk config tunnel TIMEOUT = Ok c → Do c req = Ok resp →
    ¬ accepted (StatusCode resp) →
    Cause (Errorf ("unexpected response status code: " +:+
                   pretty (StatusCode resp)))
| Cause_read c resp e :
    mk config tunnel TIMEOUT = Ok c → Do c req = Ok resp →
    accepted (StatusCode resp) →
    read_err (Body resp) = Some e → Cause e
| Cause_write c resp size p k e :
    mk config tunnel TIMEOUT = Ok c → Do c req = Ok resp →
    accepted (StatusCode resp) →
    p ∈ chunks (Body resp) → p ≠ [] →
    write_fault env size p = Some (k, e) → Cause e
| Cause_close e :
    close_fault env = Some e → Cause e
| Cause_rename e :
    rename_fault env = Some e → Cause e.

End Causes.

(** A client talks to a server that holds [resource] under [url] and
    honours range requests: asked for the bytes from [L] on, it answers 206
    with those bytes, or with a first part of them when the body breaks
    off with a read error; asked for the bytes from the end on, it answers
    416 without body bytes. *)
Definition honours_range (c : HttpClient) (url : string) (resource : bytes)
  : Prop :=
  ∀ L, (L ≤ length resource)%nat →
    ∃ resp,
      Do c (resume_request url L) = Ok resp ∧
      if (L <? length resource)%nat then
        StatusCode resp = StatusPartialContent ∧
        concat (chunks (Body resp)) `prefix_of` drop L resource ∧
        (read_err (Body resp) = None →
         concat (chunks (Body resp)) = drop L resource)
      else
        StatusCode resp = StatusRequestedRangeNotSatisfiable ∧
        concat (chunks (Body resp)) = [].

(** The surroundings let a run through: no system call fails and no body
    breaks off. *)
Definition fault_free (env : Env) (c : HttpClient) : Prop :=
  open_fault env = None ∧ fstat_fault env = None ∧
  (∀ u, url_fault env u = None) ∧
  (∀ size p, write_fault env size p = None) ∧
  close_fault env = None ∧ rename_fault env = None ∧
  (∀ rq resp, Do c rq = Ok resp → read_err (Body resp) = None).

(** A server like [range_server] whose 416 has no body. *)
Definition quiet_range_server (resource : bytes) : HttpClient :=
  {| Do := fun request =>
       match Do (range_server resource) request with
       | Ok resp =>
         if (StatusCode resp =? StatusRequestedRangeNotSatisfiable)%Z
         then Ok {| StatusCode := StatusCode resp;
                    Body := {| chunks := []; read_err := None |} |}
         else Ok resp
       | Err e => Err e
       end |}.

(** A file system from which the download of [resource] can go on: the
    final file is there and holds it, or it is missing and what is staged
    for the version, if anything, is a first part of it. *)
Definition resumable (config : Config) (version : string) (resource : bytes)
  (f : FS) : Prop :=
  f !! UpgradeDownloadFilename config = Some resource
  ∨ f !! UpgradeDownloadFilename config = None ∧
    default [] (f !! partialFilename_of (UpgradeDownloadFilename config)
                       version)
      `prefix_of` resource.

(** The file system after one run per element of [attempts], each with its
    own client constructor and its own surroundings. *)
Fixpoint reruns (Tunnel : Type) (TIMEOUT : Z)
  (attempts : list ((Config → Tunnel → Z → result HttpClient) * Env))
  (config : Config) (version : string) (tunnel : Tunnel) (f : FS) : FS :=
  match attempts with
  | [] => f
  | (mk, env) :: rest =>
    reruns Tunnel TIMEOUT rest config version tunnel
      (fs (snd (run Tunnel TIMEOUT mk env config version tunnel f)))
  end.

(** More file systems and worlds for the instances: bytes staged for two
    versions beside a file of another kind; the world after a transport
    failure on an empty disk; two interrupted attempts. *)
Definition fs_mixed : FS :=
  <["upgrade.41.part" := [Byte.x09]]>
    (<["notes.txt" := [Byte.x6e]]> fs_staged2).

Definition mixed_world : World :=
  snd (run unit 900 (tunneled (range_server resource5)) no_faults
         example_config "42" tt fs_mixed).

Definition broken_world : World :=
  snd (run unit 900 (tunneled broken_client) no_faults
         example_config "42" tt fs_empty).

Definition two_attempts
  : list ((Config → unit → Z → result HttpClient) * Env) :=
  [(tunneled (quiet_range_server resource5), disk_full_at 4);
   (no_tunnel, no_faults)].

(** ** [MobileLibrary/iOS/build-psiphon-framework.sh]: [strip_architectures] *)

(** What the function shows to the outside: the commands it runs, each
    with its words, and the lines it echoes. *)
Record Shell : Type := {
  sh_cmds : list (list string);
  sh_echo : list string
}.

(** How a piece of the script ends: it goes on (a function returns) with a
    status, or the whole script exits. *)
Inductive ShEnd : Type :=
| ShReturn (status : Z)
| ShExit (status : Z).

(** The tools the function calls.  [lipo_info] is the pipeline
    [lipo -info "$1" | rev | cut -d ':' -f1 | rev]: its output and its
    status, which is that of its last command. *)
Record Tools : Type := {
  lipo_info : string → string * Z;
  lipo_remove : string → string → Z
}.

Definition sh_run (cmd : list string) (st : Shell) : Shell :=
  {| sh_cmds := sh_cmds st ++ [cmd]; sh_echo := sh_echo st |}.

Definition sh_say (line : string) (st : Shell) : Shell :=
  {| sh_cmds := sh_cmds st; sh_echo := sh_echo st ++ [line] |}.

(** [[[ "$s" == *"$pat"* ]]]: the quoted part of the pattern stands for
    itself, so the test asks whether [pat] occurs in [s]. *)
Fixpoint occurs_in (pat s : string) : bool :=
  String.prefix pat s ||
  match s with
  | EmptyString => false
  | String _ s' => occurs_in pat s'
  end.

(** [for ARCH in words; do body; done], left by an [exit] in the body. *)
Fixpoint sh_for (words : list string)
  (body : string → Shell → option Z * Shell) (st : Shell)
  : option Z * Shell :=
  match words with
  | [] => (None, st)
  | word :: rest =>
    match body word st with
    | (Some status, st') => (Some status, st')
    | (None, st') => sh_for rest body st'
    end
  end.

(** The function, under the [set -e] of line 5.  The two variables are
    the script's globals of lines 24 and 25. *)
Definition strip_architectures (VALID_IOS_ARCHS VALID_SIMULATOR_ARCHS : string)
  (tools : Tools) (arg1 : string) (st : Shell) : ShEnd * Shell :=
  let valid_archs := VALID_IOS_ARCHS +:+ " " +:+ VALID_SIMULATOR_ARCHS in
  (* ARCHS="$(lipo -info "$1" | rev | cut -d ':' -f1 | rev)" *)
  let '(ARCHS, status) := lipo_info tools arg1 in
  let st := sh_run ["lipo"; "-info"; arg1] st in
  let st := sh_run ["rev"] st in
  let st := sh_run ["cut"; "-d"; ":"; "-f1"] st in
  let st := sh_run ["rev"] st in
  if negb (status =? 0)%Z then (ShExit status, st) (* set -e *)
  else
  (* for ARCH in "${valid_archs}": the quotes make it one word *)
  match sh_for [valid_archs]
          (fun ARCH st =>
             if negb (occurs_in ARCH valid_archs) then
               let st := sh_say ("Stripping ARCH " +:+ ARCH +:+ " from " +:+
                                 arg1) st in
               let status := lipo_remove tools ARCH arg1 in
               let st := sh_run ["lipo"; "-remove"; ARCH; "-output"; arg1;
                                 arg1] st in
               if negb (status =? 0)%Z then (Some status, st) (* set -e *)
               else if negb (status =? 0)%Z then
                 (Some 1%Z, sh_say ("FAILURE: lipo " +:+ arg1) st)
               else (None, st)
             else (None, st))
          st with
  | (Some status, st) => (ShExit status, st)
  | (None, st) => (ShReturn 0, st)
  end.

(** * Proofs *)

(** ** Basic facts *)

Lemma string_length_app (a b : string) :
  String.length (a +:+ b) = String.length a + String.length b.
Proof. induction a as [|x a IH]; simpl; [done | by rewrite IH]. Qed.

(** The staging file never has the name of the published file. *)
Lemma partialFilename_neq (filename version : string) :
  partialFilename_of filename version ≠ filename.
Proof.
  unfold partialFilename_of. intros H.
  apply (f_equal String.length) in H.
  rewrite !string_length_app in H. simpl in H. lia.
Qed.

Lemma int64_small (z : Z) : (0 ≤ z < 2 ^ 63)%Z → int64 z = z.
Proof.
  intros H. unfold int64. rewrite Z.mod_small; lia.
Qed.

Lemma int64_add_l (a b : Z) : int64 (int64 a + b) = int64 (a + b).
Proof.
  unfold int64.
  replace ((a + 2 ^ 63) mod 2 ^ 64 - 2 ^ 63 + b + 2 ^ 63)%Z
    with ((a + 2 ^ 63) mod 2 ^ 64 + b)%Z by lia.
  rewrite Zplus_mod_idemp_l. f_equal. f_equal. lia.
Qed.

Lemma flags_create :
  has_flag (Z.lor (Z.lor O_CREATE O_APPEND) O_WRONLY) O_CREATE = true.
Proof. reflexivity. Qed.

Lemma flags_no_trunc :
  has_flag (Z.lor (Z.lor O_CREATE O_APPEND) O_WRONLY) O_TRUNC = false.
Proof. reflexivity. Qed.

(** Every snapshot of a sequence of appends extends the content the
    sequence started from and leaves the other files alone. *)
Lemma snapshots_spec name f c qs h :
  h ∈ snapshots name f c qs →
  ∃ q, q `prefix_of` concat qs ∧ h = <[name := c ++ q]> f.
Proof.
  revert c. induction qs as [|q0 qs IH]; intros c; simpl.
  - intros H. by apply elem_of_nil in H.
  - intros [-> | H]%elem_of_cons.
    + exists q0. split; [by apply prefix_app_r | done].
    + destruct (IH _ H) as (q & Hq & ->).
      exists (q0 ++ q). split; [by apply prefix_app | by rewrite app_assoc].
Qed.

Lemma write_events_only_writes name ws e :
  e ∈ write_events name ws → ∃ q ok, e = EvWrite name q ok.
Proof.
  unfold write_events. intros H. apply list_elem_of_fmap in H.
  destruct H as ([q ok] & -> & _). by exists q, ok.
Qed.

Lemma snapshots_insert name f x c qs :
  snapshots name (<[name := x]> f) c qs = snapshots name f c qs.
Proof.
  revert c. induction qs as [|q qs IH]; intros c; simpl; [done |].
  by rewrite insert_insert_eq, IH.
Qed.

(** ** The primitives on an append-mode descriptor *)

(** One write through a descriptor opened with [O_APPEND]: the bytes that
    the fault lets through are added at the end of the file. *)
Lemma File_Write_append env file p w d c :
  fds w !! fd file = Some (Some d) →
  has_flag (fd_flag d) O_APPEND = true →
  fs w !! fd_name d = Some c →
  ∃ q err,
    (q, err) = match write_fault env (length c) p with
               | None => (p, None)
               | Some (k, e) => (take k p, Some e)
               end ∧
    File_Write env file p w =
    ((length q, err),
     {| fs := <[fd_name d := c ++ q]> (fs w);
        fds := <[fd file := Some {| fd_name := fd_name d;
                                    fd_flag := fd_flag d;
                                    fd_off := fd_off d + length q |}]> (fds w);
        trace := trace w ++ [EvWrite (fd_name d) q (bool_decide (err = None))];
        hist := hist w ++ [<[fd_name d := c ++ q]> (fs w)] |}).
Proof.
  intros Hfd Happ Hc.
  unfold File_Write, bind, get_fds, get_fs. rewrite Hfd, Hc. simpl.
  unfold stored. rewrite Happ.
  destruct (write_fault env (length c) p) as [[k e]|]; eexists _, _;
    (split; [reflexivity |]); reflexivity.
Qed.

(** [file.Close()] on the only descriptor, open or closed already. *)
Lemma File_Close_open env w d :
  fds w = [Some d] →
  File_Close env {| fd := 0 |} w =
  (close_fault env,
   {| fs := fs w; fds := [None];
      trace := trace w ++
               [EvFileClose (Some (fd_name d))
                  (bool_decide (close_fault env = None))];
      hist := hist w |}).
Proof.
  intros Hfds. unfold File_Close, bind, get_fds, set_fds, log, ret.
  rewrite Hfds. simpl. destruct (close_fault env); reflexivity.
Qed.

Lemma File_Close_closed env w :
  fds w = [None] →
  File_Close env {| fd := 0 |} w =
  (Some ErrClosed,
   {| fs := fs w; fds := [None];
      trace := trace w ++ [EvFileClose None false];
      hist := hist w |}).
Proof.
  intros Hfds. unfold File_Close, bind, get_fds, set_fds, log, ret.
  rewrite Hfds. simpl. by rewrite Hfds.
Qed.

(** The copy loop on an append-mode descriptor.  [ws] are the writes it
    performs; what they store is a prefix of the body, and all of it when
    the loop ends without an error. *)
Lemma copy_loop_spec env dst src er :
  ∀ w written k d c n err w',
    fds w !! fd (sfw_file dst) = Some (Some d) →
    has_flag (fd_flag d) O_APPEND = true →
    fs w !! fd_name d = Some c →
    written = int64 (Z.of_nat k) →
    copy_loop env dst src er written w = ((n, err), w') →
    ∃ ws d',
      fs w' = <[fd_name d := c ++ concat ws.*1]> (fs w) ∧
      fds w' = <[fd (sfw_file dst) := Some d']> (fds w) ∧
      fd_name d' = fd_name d ∧ fd_flag d' = fd_flag d ∧
      trace w' = trace w ++ write_events (fd_name d) ws ∧
      hist w' = hist w ++ snapshots (fd_name d) (fs w) c ws.*1 ∧
      n = int64 (Z.of_nat (k + length (concat ws.*1))) ∧
      concat ws.*1 `prefix_of` concat src ∧
      (err = None → concat ws.*1 = concat src ∧ er = None).
Proof.
  induction src as [|buf rest IH];
    intros w written k d c n err w' Hfd Happ Hc Hk Hrun.
  - simpl in Hrun. unfold ret in Hrun. injection Hrun as <- <- <-.
    exists [], d. simpl. rewrite !app_nil_r, Nat.add_0_r.
    split_and!; try done.
    + by rewrite insert_id.
    + by rewrite list_insert_id.
  - simpl in Hrun.
    destruct (0 <? length buf)%nat eqn:Hnr.
    2:{ apply Nat.ltb_ge in Hnr.
        assert (buf = []) as ->
          by (destruct buf; [done | simpl in Hnr; lia]).
        simpl. by eapply IH. }
    unfold bind, SyncFileWriter_Write in Hrun.
    destruct (File_Write_append env (sfw_file dst) buf w d c Hfd Happ Hc)
      as (q & ew & Hq & Hw).
    rewrite Hw in Hrun. clear Hw.
    set (d1 := {| fd_name := fd_name d; fd_flag := fd_flag d;
                  fd_off := fd_off d + length q |}) in *.
    set (w1 := {| fs := <[fd_name d := c ++ q]> (fs w);
                  fds := <[fd (sfw_file dst) := Some d1]> (fds w);
                  trace := trace w ++
                           [EvWrite (fd_name d) q (bool_decide (ew = None))];
                  hist := hist w ++ [<[fd_name d := c ++ q]> (fs w)] |}) in *.
    assert (Hwr : (if (0 <? length q)%nat
                   then int64 (written + Z.of_nat (length q)) else written)
                  = int64 (Z.of_nat (k + length q))).
    { subst written. destruct (0 <? length q)%nat eqn:Hq0.
      - rewrite int64_add_l. f_equal. lia.
      - apply Nat.ltb_ge in Hq0. f_equal. lia. }
    rewrite Hwr in Hrun. clear Hwr.
    assert (Hlen : fd (sfw_file dst) < length (fds w))
      by (by eapply lookup_lt_Some).
    destruct ew as [e|].
    + (* the write failed: the loop stops *)
      unfold ret in Hrun. injection Hrun as <- <- <-.
      destruct (write_fault env (length c) buf) as [[k' e']|]; [|done].
      injection Hq as -> ->.
      exists [(take k' buf, false)], d1. simpl. rewrite !app_nil_r.
      split_and!; try done.
      apply prefix_app_r, prefix_take.
    + (* the write succeeded: all of [buf] is stored *)
      destruct (write_fault env (length c) buf) as [[k' e']|]; [done|].
      injection Hq as ->.
      rewrite Nat.eqb_refl in Hrun. simpl in Hrun.
      assert (Hfd1 : fds w1 !! fd (sfw_file dst) = Some (Some d1)).
      { simpl. by rewrite list_lookup_insert_eq. }
      assert (Hc1 : fs w1 !! fd_name d1 = Some (c ++ buf)).
      { simpl. by rewrite lookup_insert_eq. }
      destruct (IH w1 _ (k + length buf) d1 (c ++ buf) n err w'
                  Hfd1 Happ Hc1 eq_refl Hrun)
        as (ws & d' & Hfs & Hfds & Hn & Hf & Htr & Hh & Hcnt & Hpre & Hok).
      exists ((buf, true) :: ws), d'. simpl in *.
      rewrite Hfs, Hfds, Htr, Hh, Hcnt.
      rewrite insert_insert_eq, list_insert_insert_eq, snapshots_insert.
      rewrite <- !app_assoc, length_app. simpl.
      split_and!; try done.
      * by rewrite <- Nat.add_assoc.
      * by apply prefix_app.
      * intros He. destruct (Hok He) as [Hc2 ->]. split; [|done].
        f_equal. exact Hc2.
Qed.


Lemma opened_lookup name f : opened name f !! name = Some (default [] (f !! name)).
Proof.
  unfold opened. destruct (f !! name) eqn:E; simpl; [done |].
  by rewrite lookup_insert_eq.
Qed.

Lemma opened_lookup_ne name f other :
  other ≠ name → opened name f !! other = f !! other.
Proof.
  intros Hne. unfold opened. destruct (f !! name); [done |].
  by rewrite lookup_insert_ne.
Qed.

Lemma hist_opened_spec name f h :
  h ∈ hist_opened name f → h = f ∨ h = opened name f.
Proof.
  unfold hist_opened, created, opened. intros [-> | H]%elem_of_cons; [by left |].
  destruct (f !! name); [by apply elem_of_nil in H |].
  apply list_elem_of_singleton in H. by right.
Qed.

(** Opening the staging file the way [DownloadUpgrade] does. *)
Lemma os_OpenFile_staging env name perm w :
  open_fault env = None →
  os_OpenFile env name (Z.lor (Z.lor O_CREATE O_APPEND) O_WRONLY) perm w =
  (Ok {| fd := length (fds w) |},
   {| fs := opened name (fs w);
      fds := fds w ++ [Some {| fd_name := name;
                               fd_flag := Z.lor (Z.lor O_CREATE O_APPEND) O_WRONLY;
                               fd_off := 0 |}];
      trace := trace w ++
               [EvOpenFile name (Z.lor (Z.lor O_CREATE O_APPEND) O_WRONLY) perm true];
      hist := hist w ++ created name (fs w) |}).
Proof.
  intros Hopen. unfold os_OpenFile, opened, created. rewrite Hopen.
  unfold bind, get_fs, get_fds, set_fs, set_fds, log, ret.
  rewrite flags_create, flags_no_trunc.
  destruct (fs w !! name); simpl; [by rewrite app_nil_r | done].
Qed.


Section Runs.

Variable Tunnel : Type.
Variable TIMEOUT : Z.
Variable mk : Config → Tunnel → Z → result HttpClient.
Variable env : Env.
Variable config : Config.
Variable version : string.
Variable tunnel : Tunnel.
Variable f0 : FS.

Local Abbreviation final := (UpgradeDownloadFilename config).
Local Abbreviation url := (UpgradeDownloadUrl config).
Local Abbreviation part := (partialFilename_of final version).
Local Abbreviation flag := (Z.lor (Z.lor O_CREATE O_APPEND) O_WRONLY).
Local Abbreviation c0 := (default [] (f0 !! part)).
Local Abbreviation f1 := (opened part f0).
Local Abbreviation req := (resume_request url (length c0)).
Local Abbreviation Outcome := (Outcome Tunnel TIMEOUT mk env config version tunnel f0).
Local Abbreviation Download := (Download env config version f0).
Local Abbreviation run0 := (run Tunnel TIMEOUT mk env config version tunnel f0).

Lemma Outcome_download c r f t h w :
  f0 !! final = None → mk config tunnel TIMEOUT = Ok c →
  open_fault env = None →
  Download c r f t h →
  fs w = f → fds w = [None] →
  trace w = EvStat final false :: EvMakeTunneledHttpClient TIMEOUT true ::
            EvOpenFile part flag 384 true :: t →
  hist w = hist_opened part f0 ++ h →
  Outcome r w.
Proof.
  intros ? ? ? HD Hfs Hfds Htr Hh. destruct w as [wf wd wt wh].
  simpl in *. subst. by eapply Out_download.
Qed.

Lemma accepted_test (status : Z) :
  negb (status =? StatusPartialContent)%Z &&
  negb (status =? StatusRequestedRangeNotSatisfiable)%Z = false ↔
  accepted status.
Proof.
  unfold accepted. rewrite andb_false_iff, !negb_false_iff, !Z.eqb_eq. done.
Qed.

Ltac close_deferred :=
  first [ erewrite File_Close_open by reflexivity
        | erewrite File_Close_closed by reflexivity ].

Lemma run_Outcome r w :
  run0 = (r, w) → Outcome r w.
Proof.
  unfold run, DownloadUpgrade, initial.
  unfold bind at 1. unfold os_Stat, bind, get_fs, log, ret,
    NoticeClientUpgradeDownloaded. simpl.
  destruct (f0 !! final) as [cf|] eqn:Hfinal; simpl.
  { intros [= <- <-]. by eapply Out_present. }
  unfold try, bind, MakeTunneledHttpClient, log, ret. simpl.
  destruct (mk config tunnel TIMEOUT) as [c|e] eqn:Hmk; simpl.
  2:{ intros [= <- <-]. by eapply Out_client. }
  destruct (open_fault env) as [e|] eqn:Hopen.
  { unfold os_OpenFile, bind, log, ret. rewrite Hopen. simpl.
    intros [= <- <-]. by eapply Out_open. }
  rewrite os_OpenFile_staging by done. simpl.
  unfold defer, try, bind.
  unfold File_Stat, bind, get_fds, get_fs, log, ret. simpl.
  destruct (fstat_fault env) as [e|] eqn:Hstat; simpl.
  { close_deferred. intros [= <- <-].
    eapply Outcome_download; [done.. | by eapply D_stat | | | |]; simpl;
      rewrite ?app_nil_r; reflexivity. }
  rewrite opened_lookup. simpl.
  unfold http_NewRequest, bind, log, ret.
  destruct (url_fault env url) as [e|] eqn:Hurl; simpl.
  { close_deferred. intros [= <- <-].
    eapply Outcome_download; [done.. | by eapply D_request | | | |]; simpl;
      rewrite ?app_nil_r; reflexivity. }
  unfold Client_Do, bind, log, ret.
  change (Header_Add {| Method := "GET"; URL := url; Header := [] |} "Range"
            (range_of (Z.of_nat (length c0)))) with req.
  destruct (Do c req) as [resp|e] eqn:Hdo; simpl.
  2:{ close_deferred. intros [= <- <-].
      eapply Outcome_download; [done.. | by eapply D_transport | | | |]; simpl;
        rewrite ?app_nil_r; reflexivity. }
  destruct (negb (StatusCode resp =? StatusPartialContent)%Z &&
            negb (StatusCode resp =? StatusRequestedRangeNotSatisfiable)%Z)
    eqn:Hstatus; simpl.
  { close_deferred. intros [= <- <-].
    assert (¬ accepted (StatusCode resp)) as Hna.
    { rewrite <- accepted_test. by rewrite Hstatus. }
    eapply Outcome_download; [done.. | by eapply D_status | | | |]; simpl;
      rewrite ?app_nil_r; reflexivity. }
  apply accepted_test in Hstatus.
  match goal with
  | |- context [io_Copy ?e ?d ?b ?wc] =>
    destruct (io_Copy e d b wc) as [[n err] w3] eqn:Hcopy
  end.
  unfold io_Copy in Hcopy.
  eapply (copy_loop_spec _ _ _ _ _ _ 0
            {| fd_name := part; fd_flag := flag; fd_off := 0 |} c0) in Hcopy;
    [| reflexivity | reflexivity | apply opened_lookup | reflexivity].
  destruct Hcopy as (ws & d3 & Hfs & Hfds & Hname & Hflag & Htr & Hh & Hn & Hpre & Hok).
  destruct w3 as [fs3 fds3 tr3 h3]. simpl in Hfs, Hfds, Hname, Hflag, Htr, Hh, Hn.
  subst fs3 fds3 tr3 h3 n.
  destruct err as [e|]; unfold check, ret; simpl.
  { (* the copy failed *)
    close_deferred. intros [= <- <-].
    eapply Outcome_download; [done.. | by eapply (D_copy _ _ _ _ c resp ws e) | | | |];
      simpl; rewrite ?Hname, <- ?app_assoc; reflexivity. }
  destruct (Hok eq_refl) as [Hall Heof].
  rewrite (File_Close_open env _ d3) by reflexivity. rewrite Hname.
  destruct (close_fault env) as [e|] eqn:Hclose; simpl.
  { try close_deferred. intros [= <- <-].
    eapply Outcome_download; [done.. | by eapply (D_close _ _ _ _ c resp ws e) | | | |];
      simpl; rewrite ?Hname, <- ?app_assoc; reflexivity. }
  unfold os_Rename, bind, get_fs, set_fs, log, ret.
  destruct (rename_fault env) as [e|] eqn:Hrename; simpl.
  { try close_deferred. intros [= <- <-].
    eapply Outcome_download; [done.. | by eapply (D_rename _ _ _ _ c resp ws e) | | | |];
      simpl; rewrite ?Hname, <- ?app_assoc; reflexivity. }
  rewrite lookup_insert_eq. simpl.
  try close_deferred. intros [= <- <-].
  eapply Outcome_download; [done.. | by eapply (D_done _ _ _ _ c resp ws) | | | |];
    simpl; rewrite ?Hname, <- ?app_assoc; reflexivity.
Qed.

End Runs.

(** ** Tools for the case analyses *)

Lemma forallb_write_events (P : Event → bool) name ws :
  (∀ q ok, P (EvWrite name q ok) = true) →
  forallb P (write_events name ws) = true.
Proof.
  intros HP. induction ws as [|[q ok] ws IH]; simpl; [done |].
  by rewrite HP, IH.
Qed.


Lemma filter_write_events (P : Event → bool) name ws :
  (∀ q ok, P (EvWrite name q ok) = false) →
  List.filter P (write_events name ws) = [].
Proof.
  intros HP. induction ws as [|[q ok] ws IH]; simpl; [done |].
  by rewrite HP, IH.
Qed.

(** Take a membership in a log apart, element by element. *)
Ltac mem_inv H :=
  repeat match type of H with
  | _ ∈ [] => by apply elem_of_nil in H
  | _ ∈ _ :: _ =>
    apply elem_of_cons in H; destruct H as [H | H]; [try discriminate H |]
  | _ ∈ _ ++ _ => apply elem_of_app in H; destruct H as [H | H]
  | _ ∈ write_events _ _ =>
    apply write_events_only_writes in H;
    let q := fresh "q" in let ok := fresh "ok" in
    destruct H as (q & ok & H); try discriminate H
  end.

(** Decide a boolean property of all entries of a log. *)
Ltac log_forall :=
  simpl; rewrite ?forallb_app; simpl;
  rewrite ?forallb_write_events by done; reflexivity.

(** The cases of a run, named. *)
Ltac run_cases H :=
  apply run_Outcome in H;
  destruct H as [cf Hfinal | er Hfinal Hmk | cl er Hfinal Hmk Hopen
                | cl rD fD tD hD Hfinal Hmk Hopen HD];
  [ | | |
    destruct HD as [ er Hstat | er Hstat Hurl | er Hstat Hurl Hdo
                   | rsp Hstat Hurl Hdo Hna
                   | rsp ws er Hstat Hurl Hdo Hacc Hpre
                   | rsp ws er Hstat Hurl Hdo Hacc Hall Heof Hclose
                   | rsp ws er Hstat Hurl Hdo Hacc Hall Heof Hclose Hren
                   | rsp ws Hstat Hurl Hdo Hacc Hall Heof Hclose Hren ] ].

(** A run that finds the upgrade file does nothing but say so. *)
Lemma run_present Tunnel TIMEOUT mk env config version tunnel (f : FS) :
  is_Some (f !! UpgradeDownloadFilename config) →
  run Tunnel TIMEOUT mk env config version tunnel f =
  (None, short_circuit (UpgradeDownloadFilename config) f).
Proof.
  intros [c Hc]. unfold run, DownloadUpgrade, initial.
  unfold bind at 1. unfold os_Stat, bind, get_fs, log, ret,
    NoticeClientUpgradeDownloaded. simpl. by rewrite Hc.
Qed.

(** A run that succeeds leaves the upgrade file in place. *)
Lemma run_success_final Tunnel TIMEOUT mk env config version tunnel (f : FS) w :
  run Tunnel TIMEOUT mk env config version tunnel f = (None, w) →
  is_Some (fs w !! UpgradeDownloadFilename config).
Proof.
  intros H. remember None as r eqn:Hr in H.
  run_cases H; try discriminate Hr; simpl.
  - by exists cf.
  - rewrite lookup_insert_eq. by eexists.
Qed.

(** The request of a run is the resume request for the staging file as the
    run found it, whatever the answer. *)
Lemma run_request Tunnel TIMEOUT mk env config version tunnel (f : FS) r w rq st :
  run Tunnel TIMEOUT mk env config version tunnel f = (r, w) →
  EvDo rq st ∈ trace w →
  rq = resume_request (UpgradeDownloadUrl config)
         (length (default []
            (f !! partialFilename_of (UpgradeDownloadFilename config) version))).
Proof.
  intros H Hin. run_cases H; simpl in Hin; mem_inv Hin; congruence.
Qed.

(** The last state of a sequence of appends holds everything appended. *)
Lemma snapshots_last name f c qs :
  qs = [] ∨ <[name := c ++ concat qs]> f ∈ snapshots name f c qs.
Proof.
  revert c. induction qs as [|q qs IH]; intros c; [by left | right].
  simpl. apply elem_of_cons. destruct (IH (c ++ q)) as [-> | Hin].
  - left. simpl. by rewrite app_nil_r.
  - right. by rewrite app_assoc.
Qed.

Lemma hist_opened_last name f : opened name f ∈ hist_opened name f.
Proof.
  unfold hist_opened, created, opened. destruct (f !! name).
  - apply elem_of_cons. by left.
  - apply elem_of_cons. right. apply elem_of_cons. by left.
Qed.

(** After any number of appends some state gone through holds all of them. *)
Lemma hist_holds_all name f c qs :
  opened name f !! name = Some c →
  ∃ h, h ∈ hist_opened name f ++ snapshots name (opened name f) c qs ∧
       h !! name = Some (c ++ concat qs).
Proof.
  intros Hc. destruct (snapshots_last name (opened name f) c qs) as [-> | Hin].
  - exists (opened name f). split.
    + apply elem_of_app. left. apply hist_opened_last.
    + simpl. by rewrite app_nil_r.
  - eexists. split.
    + apply elem_of_app. right. exact Hin.
    + by rewrite lookup_insert_eq.
Qed.

(** What the staging file holds in a state on the way is a prefix of what
    it holds once [qs] have been appended. *)
Lemma staged_grows name f qs h content :
  h ∈ hist_opened name f ++
      snapshots name (opened name f) (default [] (f !! name)) qs →
  h !! name = Some content →
  ∃ extra, default [] (f !! name) ++ concat qs = content ++ extra.
Proof.
  intros [Hh | Hh]%elem_of_app Hc.
  - exists (concat qs). f_equal.
    destruct (hist_opened_spec _ _ _ Hh) as [-> | ->].
    + by rewrite Hc.
    + rewrite opened_lookup in Hc. by injection Hc.
  - destruct (snapshots_spec _ _ _ _ _ Hh) as (q & [k Hk] & ->).
    rewrite lookup_insert_eq in Hc. injection Hc as <-.
    exists k. by rewrite Hk, app_assoc.
Qed.

(** A staging file that is there at the start is there in every state on
    the way, with its first bytes in front. *)
Lemma staged_kept name f qs h content :
  f !! name = Some content →
  h ∈ hist_opened name f ++
      snapshots name (opened name f) (default [] (f !! name)) qs →
  ∃ extra, h !! name = Some (content ++ extra).
Proof.
  intros Hc [Hh | Hh]%elem_of_app.
  - exists []. rewrite app_nil_r.
    destruct (hist_opened_spec _ _ _ Hh) as [-> | ->]; [done |].
    unfold opened. by rewrite Hc.
  - destruct (snapshots_spec _ _ _ _ _ Hh) as (q & _ & ->).
    exists q. rewrite lookup_insert_eq, Hc. done.
Qed.

(** * The properties of the design document *)

Section Properties.

Variable Tunnel : Type.
Variable TIMEOUT : Z.
Variable mk : Config → Tunnel → Z → result HttpClient.
Variable env : Env.
Variable config : Config.
Variable version : string.
Variable tunnel : Tunnel.
Variable f0 : FS.

Local Abbreviation final := (UpgradeDownloadFilename config).
Local Abbreviation url := (UpgradeDownloadUrl config).
Local Abbreviation part := (partialFilename_of final version).
Local Abbreviation flag := (Z.lor (Z.lor O_CREATE O_APPEND) O_WRONLY).
Local Abbreviation c0 := (default [] (f0 !! part)).
Local Abbreviation run0 := (run Tunnel TIMEOUT mk env config version tunnel f0).

(** C4. When a file already exists at the final path, the run returns
    success at once: it logs the stat and the artifact-available notice and
    nothing else, so there is no network operation, no open, no write and
    the file system is the one it started from.  Since a successful run
    leaves a file at the final path, every run that follows a success,
    whatever the surroundings and the version asked for, is of that kind. *)
Theorem DownloadUpgrade_present_idempotent r w :
  run0 = (r, w) →
  (is_Some (f0 !! final) →
   r = None ∧ w = short_circuit final f0 ∧
   forallb (fun e => negb (is_network e) && negb (is_fs_write e))
     (trace w) = true) ∧
  (r = None →
   is_Some (fs w !! final) ∧
   ∀ Tunnel' TIMEOUT' (mk' : Config → Tunnel' → Z → result HttpClient)
     env' version' tunnel',
     run Tunnel' TIMEOUT' mk' env' config version' tunnel' (fs w) =
     (None, short_circuit final (fs w))).
Proof.
  intros H. split.
  - intros Hf. rewrite run_present in H by done. by injection H as <- <-.
  - intros ->. pose proof (run_success_final _ _ _ _ _ _ _ _ _ H) as Hf.
    split; [done |]. intros. by apply run_present.
Qed.

(** C10. The tunneled client is made after the stat of the final path and
    before the staging file is opened: the log of a run is the short
    circuit, or the stat followed by a failed construction, or the stat,
    the construction with the timeout constant, the open, and then no
    further construction or open.  A run in which the construction fails
    returns that error and leaves the file system as it was: no state but
    the initial one, no descriptor, nothing in the log but the stat and
    the failed construction. *)
Theorem DownloadUpgrade_client_before_open r w :
  run0 = (r, w) →
  (trace w = [EvStat final true; EvNoticeClientUpgradeDownloaded final]
   ∨ trace w = [EvStat final false; EvMakeTunneledHttpClient TIMEOUT false]
   ∨ ∃ ok rest,
       trace w = EvStat final false :: EvMakeTunneledHttpClient TIMEOUT true ::
                 EvOpenFile part flag 384 ok :: rest ∧
       forallb (fun e => negb (is_make e) && negb (is_open e)) rest = true) ∧
  (∀ t, EvMakeTunneledHttpClient t false ∈ trace w →
     ∃ e, mk config tunnel TIMEOUT = Err e ∧
          r = Some (ContextError e) ∧
          w = {| fs := f0; fds := [];
                 trace := [EvStat final false;
                           EvMakeTunneledHttpClient TIMEOUT false];
                 hist := [f0] |}).
Proof.
  intros H. run_cases H; simpl.
  all: split;
    [ first [ by left | by right; left
            | right; right; eexists _, _; split; [reflexivity | log_forall] ]
    | intros t0 Hin; mem_inv Hin ].
  injection Hin as ->. by exists er.
Qed.

(** C3. When the request is answered with a status other than 206 and 416,
    the run closes the response body, returns the protocol error naming the
    status, and stops: after the answer the log has only the close of the
    body and the deferred close of the file, so nothing is written or
    renamed, and the file system is the one the request was made in, with
    the staging file holding what it held. *)
Theorem DownloadUpgrade_unexpected_status r w rq st :
  run0 = (r, w) →
  EvDo rq (Some st) ∈ trace w →
  st ≠ StatusPartialContent →
  st ≠ StatusRequestedRangeNotSatisfiable →
  r = Some (ContextError (Errorf ("unexpected response status code: " +:+
                                  pretty st))) ∧
  trace w = [EvStat final false; EvMakeTunneledHttpClient TIMEOUT true;
             EvOpenFile part flag 384 true; EvFileStat part true;
             EvNewRequest "GET" url true; EvDo rq (Some st);
             EvBodyClose; deferred_close env part] ∧
  rq = resume_request url (length c0) ∧
  fs w = opened part f0 ∧
  hist w = hist_opened part f0 ∧
  fs w !! part = Some c0 ∧
  fs w !! final = f0 !! final.
Proof.
  intros H Hin H206 H416.
  run_cases H; simpl in Hin; mem_inv Hin; injection Hin as -> ->.
  - simpl. rewrite app_nil_r, opened_lookup.
    rewrite opened_lookup_ne by (symmetry; apply partialFilename_neq). done.
  - destruct Hacc; contradiction.
  - destruct Hacc; contradiction.
  - destruct Hacc; contradiction.
  - destruct Hacc; contradiction.
Qed.

(** C9. On the download path the staging file is the one named
    [<final path>.<version>.part]: the third entry of the log is its open,
    with the flags [O_CREATE|O_APPEND|O_WRONLY] and without [O_TRUNC], and
    nothing else is opened.  The open succeeds unless the system refuses
    it; an open with these flags leaves the bytes of an existing file as
    they are, creates a missing file empty, leaves the other files alone,
    and yields a descriptor through which every write lands at the end. *)
Theorem DownloadUpgrade_staging_file r w c :
  run0 = (r, w) →
  f0 !! final = None →
  mk config tunnel TIMEOUT = Ok c →
  (∃ ok rest,
     trace w = EvStat final false :: EvMakeTunneledHttpClient TIMEOUT true ::
               EvOpenFile (final +:+ "." +:+ version +:+ ".part")
                 (Z.lor (Z.lor O_CREATE O_APPEND) O_WRONLY) 384 ok :: rest ∧
     forallb (fun e => negb (is_open e)) rest = true ∧
     (ok = true ↔ open_fault env = None) ∧
     (ok = true → ∃ hs, hist w = f0 :: created part f0 ++ hs)) ∧
  has_flag flag O_APPEND = true ∧
  has_flag flag O_CREATE = true ∧
  has_flag flag O_TRUNC = false ∧
  (∀ perm w0 file w1,
     os_OpenFile env part flag perm w0 = (Ok file, w1) →
     fs w1 !! part = Some (default [] (fs w0 !! part)) ∧
     (∀ other, other ≠ part → fs w1 !! other = fs w0 !! other) ∧
     ∃ d, fds w1 !! fd file = Some (Some d) ∧ fd_name d = part ∧
          ∀ content q, stored d content q = content ++ q).
Proof.
  intros H Hf Hc. split_and!; try reflexivity.
  - run_cases H; try congruence; simpl.
    all: eexists _, _; split_and!;
      [ reflexivity | log_forall | split; congruence || done
      | first [ discriminate | intros _; eexists; reflexivity ] ].
  - intros perm w0 file w1 Hop.
    destruct (open_fault env) as [e|] eqn:Hopen.
    { unfold os_OpenFile, bind, log, ret in Hop. rewrite Hopen in Hop.
      discriminate Hop. }
    rewrite os_OpenFile_staging in Hop by done.
    injection Hop as <- <-. simpl. split_and!.
    + apply opened_lookup.
    + intros other Hne. by apply opened_lookup_ne.
    + eexists. split_and!.
      * rewrite lookup_app_r by done. by rewrite Nat.sub_diag.
      * done.
      * intros content q. unfold stored. simpl. done.
Qed.

(** C2. Whatever request a run sends is a GET of the configured URL whose
    only header is [Range: bytes=L-], [L] being the length of the staging
    file when the request is made (after the open and before any write).
    If the answer is a 206 and the copy of its body succeeds (the byte-count
    notice is then in the log), some state gone through has the staging
    file holding its old bytes followed by the whole body, [L+K] bytes,
    and in the end that content is in the staging file, or, when the run
    succeeds, in the final file the staging file was renamed to. *)
Theorem DownloadUpgrade_resume r w rq st :
  run0 = (r, w) →
  EvDo rq st ∈ trace w →
  rq = {| Method := "GET"; URL := url;
          Header := [("Range",
                      "bytes=" +:+ pretty (Z.of_nat (length c0)) +:+ "-")] |} ∧
  opened part f0 !! part = Some c0 ∧
  (∃ pre post, trace w = pre ++ EvDo rq st :: post ∧
               forallb (fun e => negb (is_write e)) pre = true) ∧
  (∀ c resp msg,
     mk config tunnel TIMEOUT = Ok c →
     Do c rq = Ok resp →
     StatusCode resp = StatusPartialContent →
     EvNoticeInfo msg ∈ trace w →
     (∃ h, h ∈ hist w ∧
           h !! part = Some (c0 ++ concat (chunks (Body resp)))) ∧
     (fs w !! part = Some (c0 ++ concat (chunks (Body resp)))
      ∨ r = None ∧ fs w !! part = None ∧
        fs w !! final = Some (c0 ++ concat (chunks (Body resp)))) ∧
     length (c0 ++ concat (chunks (Body resp))) =
     length c0 + length (concat (chunks (Body resp)))).
Proof.
  intros H Hin.
  pose proof (run_request _ _ _ _ _ _ _ _ _ _ _ _ H Hin) as ->.
  split_and!; [reflexivity | apply opened_lookup | |].
  - run_cases H; simpl in Hin; mem_inv Hin; injection Hin as <-.
    all: eexists [_; _; _; _; _], _; split; [reflexivity | reflexivity].
  - intros c resp msg Hc Hresp H206 Hmsg.
    run_cases H; simpl in Hmsg; mem_inv Hmsg; clear Hmsg.
    all: assert (cl = c) as -> by congruence.
    all: assert (rsp = resp) as -> by congruence.
    all: rewrite <- Hall; cbn [fs hist].
    all: split_and!; [ | | apply length_app ].
    all: try (destruct (hist_holds_all part f0 c0 ws.*1 (opened_lookup _ _))
                as (h & Hh & Hl);
              exists h; split; [| exact Hl];
              first [ exact Hh
                    | rewrite app_assoc; apply elem_of_app; left; exact Hh ]).
    + left. by rewrite lookup_insert_eq.
    + left. by rewrite lookup_insert_eq.
    + right. split_and!; [done | |].
      * rewrite lookup_insert_ne by (symmetry; apply partialFilename_neq).
        by rewrite lookup_delete_eq.
      * by rewrite lookup_insert_eq.
Qed.

(** C6. When a run returns an error, whatever the step that failed, the
    staging file is left on disk with its bytes intact.  Whatever it held
    in any state the run went through, at the start in particular, it
    holds in the end with at most more bytes behind; and if it was there at
    the start, it is there in every state with its first bytes in front:
    it is never deleted nor shortened.  No other file changes and the final
    path is still empty, so a later run for the same version downloads
    again, and any request it sends asks for the bytes from the length the
    staging file now has. *)
Theorem DownloadUpgrade_failure_keeps_partial r w e :
  run0 = (r, w) →
  r = Some e →
  f0 ∈ hist w ∧
  (∀ h content, h ∈ hist w → h !! part = Some content →
     ∃ extra, fs w !! part = Some (content ++ extra)) ∧
  (∀ h content, f0 !! part = Some content → h ∈ hist w →
     ∃ extra, h !! part = Some (content ++ extra)) ∧
  (∀ other, other ≠ part → fs w !! other = f0 !! other) ∧
  fs w !! final = None ∧
  (∀ Tunnel' TIMEOUT' (mk' : Config → Tunnel' → Z → result HttpClient)
     env' tunnel' r' w' rq st,
     run Tunnel' TIMEOUT' mk' env' config version tunnel' (fs w) = (r', w') →
     EvDo rq st ∈ trace w' →
     rq = resume_request url (length (default [] (fs w !! part)))).
Proof.
  intros H Hr.
  assert (Hne : final ≠ part) by (symmetry; apply partialFilename_neq).
  split_and!.
  6:{ intros. by eapply run_request. }
  all: run_cases H; try discriminate Hr; cbn [fs hist].
  (* the initial state is one of the states *)
  1-2: apply elem_of_cons; by left.
  1-7: apply elem_of_app; left; apply elem_of_cons; by left.
  (* the content at the end *)
  1-2: intros h content Hh%list_elem_of_singleton Hc; subst h;
       exists []; by rewrite app_nil_r.
  1-4: intros h content Hh Hc; rewrite app_nil_r in Hh;
       exists []; rewrite app_nil_r, <- Hc;
       destruct (hist_opened_spec _ _ _ Hh) as [-> | ->]; [| done];
       unfold opened; by rewrite Hc.
  1-3: intros h content Hh Hc; rewrite lookup_insert_eq;
       destruct (staged_grows _ _ _ _ _ Hh Hc) as [extra ->];
       by exists extra.
  (* every state on the way *)
  1-2: intros h content Hc Hh%list_elem_of_singleton; subst h;
       exists []; by rewrite app_nil_r.
  1-4: intros h content Hc Hh;
       destruct (staged_kept _ _ [] _ _ Hc Hh) as [extra ->];
       by exists extra.
  1-3: intros h content Hc Hh;
       destruct (staged_kept _ _ _ _ _ Hc Hh) as [extra ->];
       by exists extra.
  (* the other files *)
  1-2: done.
  1-4: intros other Ho; by apply opened_lookup_ne.
  1-3: intros other Ho; rewrite lookup_insert_ne by done;
       by apply opened_lookup_ne.
  (* the final path *)
  1-2: done.
  1-4: by rewrite opened_lookup_ne.
  1-3: rewrite lookup_insert_ne by done; by rewrite opened_lookup_ne.
Qed.

(** C7. Either a run never attempts the rename, or its log reads: entries
    without write, close or rename; the writes to the staging file; the
    byte-count notice; the successful close of the staging file; the
    rename; entries without write or rename.  So every write precedes the
    successful close and the close precedes the rename, and the file that
    is renamed holds every byte written.  If the close of the staging file
    fails, no rename is in the log. *)
Theorem DownloadUpgrade_close_before_rename r w :
  run0 = (r, w) →
  (forallb (fun e => negb (is_rename e)) (trace w) = true
   ∨ ∃ pre ws msg ok post,
       trace w = pre ++ write_events part ws ++
                 [EvNoticeInfo msg; EvFileClose (Some part) true;
                  EvRename part final ok] ++ post ∧
       forallb (fun e => negb (is_write e) && negb (is_close e) &&
                         negb (is_rename e)) pre = true ∧
       forallb (fun e => negb (is_write e) && negb (is_rename e)) post = true ∧
       (ok = true → fs w !! final = Some (c0 ++ concat ws.*1)) ∧
       (ok = false → fs w !! part = Some (c0 ++ concat ws.*1))) ∧
  (EvFileClose (Some part) false ∈ trace w →
   forallb (fun e => negb (is_rename e)) (trace w) = true).
Proof.
  intros H. run_cases H; cbn [trace fs]; split.
  all: try (intros Hin; first [ log_forall | by mem_inv Hin ]).
  all: first
    [ left; log_forall
    | right; eexists [_; _; _; _; _; _], ws, _, _, _; split_and!;
      [ reflexivity | reflexivity | reflexivity
      | first [ discriminate | intros _; by rewrite lookup_insert_eq ]
      | first [ discriminate | intros _; by rewrite lookup_insert_eq ] ] ].
Qed.


(** C5, as amended.  A run that succeeds because the final file is already
    there emits one notice, that the artifact is available.  A run that
    succeeds by downloading emits two: the byte count, with the number of
    body bytes it appended (as a 64-bit integer), once the copy is done and
    before the staging file is closed and renamed; then, after the rename,
    that the artifact is available at the final path. *)
Theorem DownloadUpgrade_success_events r w :
  run0 = (r, w) →
  r = None →
  is_Some (f0 !! final) ∧
  trace w = [EvStat final true; EvNoticeClientUpgradeDownloaded final]
  ∨ f0 !! final = None ∧
    ∃ pre body,
      trace w = pre ++
        [EvNoticeInfo ("client upgrade downloaded bytes: " +:+
                       pretty (int64 (Z.of_nat (length body))));
         EvFileClose (Some part) true;
         EvRename part final true;
         EvNoticeClientUpgradeDownloaded final;
         EvBodyClose; EvFileClose None false] ∧
      forallb (fun e => negb (is_notice e)) pre = true ∧
      fs w !! final = Some (c0 ++ body) ∧
      ((Z.of_nat (length body) < 2 ^ 63)%Z →
       int64 (Z.of_nat (length body)) = Z.of_nat (length body)).
Proof.
  intros H Hr. run_cases H; try discriminate Hr; cbn [trace fs].
  - left. split; [by exists cf | done].
  - right. split; [done |].
    exists ([EvStat final false; EvMakeTunneledHttpClient TIMEOUT true;
             EvOpenFile part flag 384 true; EvFileStat part true;
             EvNewRequest "GET" url true;
             EvDo (resume_request url (length c0)) (Some (StatusCode rsp))]
            ++ write_events part ws), (concat ws.*1).
    split_and!.
    + by rewrite <- app_assoc.
    + log_forall.
    + by rewrite lookup_insert_eq.
    + intros Hlt. apply int64_small. lia.
Qed.

(** The answer 416 is treated like 206: when the copy of its body
    succeeds, the notice counts the bytes of that body and the file that
    was staged holds them behind its old bytes.  Only a 416 without body
    bytes leaves the count at 0 and the file as it was. *)
Lemma DownloadUpgrade_range_not_satisfiable r w rq c resp msg :
  run0 = (r, w) →
  EvDo rq (Some StatusRequestedRangeNotSatisfiable) ∈ trace w →
  mk config tunnel TIMEOUT = Ok c →
  Do c rq = Ok resp →
  EvNoticeInfo msg ∈ trace w →
  msg = "client upgrade downloaded bytes: " +:+
        pretty (int64 (Z.of_nat (length (concat (chunks (Body resp)))))) ∧
  (fs w !! part = Some (c0 ++ concat (chunks (Body resp)))
   ∨ r = None ∧ fs w !! final = Some (c0 ++ concat (chunks (Body resp)))).
Proof.
  intros H Hin Hc Hresp Hmsg.
  pose proof (run_request _ _ _ _ _ _ _ _ _ _ _ _ H Hin) as ->.
  run_cases H; simpl in Hmsg; mem_inv Hmsg; injection Hmsg as ->.
  all: assert (cl = c) as -> by congruence.
  all: assert (rsp = resp) as -> by congruence.
  all: rewrite <- Hall; cbn [fs]; split; [done |].
  - left. by rewrite lookup_insert_eq.
  - left. by rewrite lookup_insert_eq.
  - right. split; [done |]. by rewrite lookup_insert_eq.
Qed.

End Properties.

(** * The properties at concrete inputs *)

(** Membership in a computed log. *)
Ltac in_log := vm_compute; repeat constructor.

(** C1 asks that a 416 answer leads to no copy of body bytes and to a byte
    count of 0.  The code does otherwise.  Here the staging file already
    holds the whole resource and the server answers the request for
    [bytes=5-] with a 416 that carries an error document: the run copies
    the eight bytes of that document into the staging file, reports 8
    bytes transferred and publishes the result at the final path. *)
Theorem DownloadUpgrade_416_body_is_copied :
  run unit 900 (tunneled (range_server resource5)) no_faults
    example_config "42" tt fs_staged5 = (None, complete_world) ∧
  trace complete_world =
    [EvStat "upgrade" false; EvMakeTunneledHttpClient 900 true;
     EvOpenFile "upgrade.42.part" 1089 384 true;
     EvFileStat "upgrade.42.part" true;
     EvNewRequest "GET" "https://example.org/upgrade" true;
     EvDo {| Method := "GET"; URL := "https://example.org/upgrade";
             Header := [("Range", "bytes=5-")] |}
          (Some StatusRequestedRangeNotSatisfiable);
     EvWrite "upgrade.42.part" invalid_range_body true;
     EvNoticeInfo "client upgrade downloaded bytes: 8";
     EvFileClose (Some "upgrade.42.part") true;
     EvRename "upgrade.42.part" "upgrade" true;
     EvNoticeClientUpgradeDownloaded "upgrade";
     EvBodyClose; EvFileClose None false] ∧
  fs complete_world !! "upgrade" = Some (resource5 ++ invalid_range_body).
Proof. split_and!; vm_compute; reflexivity. Qed.

(** C5 as stated fails twice.  A run that finds the final file succeeds
    and emits no byte-count notice at all; and in a run that downloads, the
    byte-count notice (entry 8 of the log) comes before the close and the
    rename (entries 9 and 10), not after the rename. *)
Lemma DownloadUpgrade_success_events_counterexample :
  (run unit 900 (tunneled (range_server resource5)) no_faults
     example_config "42" tt fs_done = (None, short_circuit "upgrade" fs_done) ∧
   ¬ ∃ msg, EvNoticeInfo msg ∈ trace (short_circuit "upgrade" fs_done)) ∧
  (run unit 900 (tunneled (range_server resource5)) no_faults
     example_config "42" tt fs_staged2 = (None, resume_world) ∧
   trace resume_world !! 8%nat =
     Some (EvNoticeInfo "client upgrade downloaded bytes: 3") ∧
   trace resume_world !! 9%nat =
     Some (EvFileClose (Some "upgrade.42.part") true) ∧
   trace resume_world !! 10%nat =
     Some (EvRename "upgrade.42.part" "upgrade" true)).
Proof.
  split_and!; try (vm_compute; reflexivity).
  intros [msg Hin]. simpl in Hin. mem_inv Hin.
Qed.

Lemma DownloadUpgrade_present_idempotent_witness :
  run unit 900 (tunneled (range_server resource5)) no_faults
    example_config "42" tt fs_staged2 = (None, resume_world) ∧
  run unit 0 no_tunnel (disk_full_at 0) example_config "43" tt
    (fs resume_world) = (None, short_circuit "upgrade" (fs resume_world)).
Proof.
  assert (H : run unit 900 (tunneled (range_server resource5)) no_faults
                example_config "42" tt fs_staged2 = (None, resume_world))
    by (vm_compute; reflexivity).
  split; [exact H |].
  destruct (DownloadUpgrade_present_idempotent _ _ _ _ _ _ _ _ _ _ H)
    as [_ H2].
  destruct (H2 eq_refl) as [_ H3].
  exact (H3 unit 0%Z no_tunnel (disk_full_at 0) "43" tt).
Defined.

Lemma DownloadUpgrade_client_before_open_witness :
  run unit 900 no_tunnel no_faults example_config "42" tt fs_staged2 =
    (Some (ContextError (EnvError "tunnel is down")), no_tunnel_world) ∧
  EvMakeTunneledHttpClient 900 false ∈ trace no_tunnel_world ∧
  no_tunnel_world =
    {| fs := fs_staged2; fds := [];
       trace := [EvStat "upgrade" false; EvMakeTunneledHttpClient 900 false];
       hist := [fs_staged2] |}.
Proof.
  assert (H : run unit 900 no_tunnel no_faults example_config "42" tt
                fs_staged2 =
              (Some (ContextError (EnvError "tunnel is down")),
               no_tunnel_world)) by (vm_compute; reflexivity).
  assert (Hin : EvMakeTunneledHttpClient 900 false ∈ trace no_tunnel_world)
    by in_log.
  destruct (DownloadUpgrade_client_before_open _ _ _ _ _ _ _ _ _ _ H)
    as [_ T].
  destruct (T _ Hin) as (e & _ & _ & Hw).
  split_and!; [exact H | exact Hin | exact Hw].
Defined.

Lemma DownloadUpgrade_unexpected_status_witness :
  run unit 900 (tunneled (status_server 404)) no_faults
    example_config "42" tt fs_staged2 =
    (Some (ContextError (Errorf "unexpected response status code: 404")),
     refused_world) ∧
  EvDo (resume_request "https://example.org/upgrade" 2) (Some 404%Z)
    ∈ trace refused_world ∧
  404%Z ≠ StatusPartialContent ∧
  404%Z ≠ StatusRequestedRangeNotSatisfiable ∧
  trace refused_world =
    [EvStat "upgrade" false; EvMakeTunneledHttpClient 900 true;
     EvOpenFile "upgrade.42.part" 1089 384 true;
     EvFileStat "upgrade.42.part" true;
     EvNewRequest "GET" "https://example.org/upgrade" true;
     EvDo (resume_request "https://example.org/upgrade" 2) (Some 404%Z);
     EvBodyClose; EvFileClose (Some "upgrade.42.part") true] ∧
  fs refused_world !! "upgrade.42.part" = Some [Byte.x01; Byte.x02].
Proof.
  assert (H : run unit 900 (tunneled (status_server 404)) no_faults
                example_config "42" tt fs_staged2 =
              (Some (ContextError
                       (Errorf "unexpected response status code: 404")),
               refused_world)) by (vm_compute; reflexivity).
  assert (Hin : EvDo (resume_request "https://example.org/upgrade" 2)
                  (Some 404%Z) ∈ trace refused_world) by in_log.
  assert (H206 : 404%Z ≠ StatusPartialContent) by discriminate.
  assert (H416 : 404%Z ≠ StatusRequestedRangeNotSatisfiable) by discriminate.
  destruct (DownloadUpgrade_unexpected_status _ _ _ _ _ _ _ _ _ _ _ _
              H Hin H206 H416) as (_ & Ht & _ & _ & _ & Hp & _).
  split_and!; [exact H | exact Hin | exact H206 | exact H416
              | exact Ht | exact Hp].
Defined.

Lemma DownloadUpgrade_staging_file_witness :
  run unit 900 (tunneled (range_server resource5)) no_faults
    example_config "42" tt fs_empty = (None, snd (run unit 900
      (tunneled (range_server resource5)) no_faults example_config "42" tt
      fs_empty)) ∧
  fs_empty !! "upgrade" = None ∧
  tunneled (range_server resource5) example_config tt 900 =
    Ok (range_server resource5) ∧
  ∃ ok rest,
    trace (snd (run unit 900 (tunneled (range_server resource5)) no_faults
                  example_config "42" tt fs_empty)) =
      EvStat "upgrade" false :: EvMakeTunneledHttpClient 900 true ::
      EvOpenFile "upgrade.42.part"
        (Z.lor (Z.lor O_CREATE O_APPEND) O_WRONLY) 384 ok :: rest ∧
    forallb (fun e => negb (is_open e)) rest = true ∧
    (ok = true ↔ open_fault no_faults = None) ∧
    (ok = true →
     ∃ hs, hist (snd (run unit 900 (tunneled (range_server resource5))
                        no_faults example_config "42" tt fs_empty)) =
           fs_empty :: created "upgrade.42.part" fs_empty ++ hs).
Proof.
  assert (H : run unit 900 (tunneled (range_server resource5)) no_faults
                example_config "42" tt fs_empty =
              (None, snd (run unit 900 (tunneled (range_server resource5))
                            no_faults example_config "42" tt fs_empty)))
    by (vm_compute; reflexivity).
  assert (Hf : fs_empty !! "upgrade" = None) by reflexivity.
  assert (Hc : tunneled (range_server resource5) example_config tt 900 =
               Ok (range_server resource5)) by reflexivity.
  destruct (DownloadUpgrade_staging_file _ _ _ _ _ _ _ _ _ _ _ H Hf Hc)
    as (T & _).
  split_and!; [exact H | exact Hf | exact Hc | exact T].
Defined.

Lemma DownloadUpgrade_resume_witness :
  run unit 900 (tunneled (range_server resource5)) no_faults
    example_config "42" tt fs_staged2 = (None, resume_world) ∧
  EvDo (resume_request "https://example.org/upgrade" 2)
    (Some StatusPartialContent) ∈ trace resume_world ∧
  resume_request "https://example.org/upgrade" 2 =
    {| Method := "GET"; URL := "https://example.org/upgrade";
       Header := [("Range", "bytes=2-")] |} ∧
  ((∃ h, h ∈ hist resume_world ∧
         h !! "upgrade.42.part" =
         Some ([Byte.x01; Byte.x02] ++
               concat [[Byte.x03; Byte.x04]; [Byte.x05]])) ∧
   (fs resume_world !! "upgrade.42.part" =
      Some ([Byte.x01; Byte.x02] ++
            concat [[Byte.x03; Byte.x04]; [Byte.x05]])
    ∨ (None : option error) = None ∧
      fs resume_world !! "upgrade.42.part" = None ∧
      fs resume_world !! "upgrade" =
        Some ([Byte.x01; Byte.x02] ++
              concat [[Byte.x03; Byte.x04]; [Byte.x05]])) ∧
   length ([Byte.x01; Byte.x02] ++
           concat [[Byte.x03; Byte.x04]; [Byte.x05]]) = (2 + 3)%nat).
Proof.
  assert (H : run unit 900 (tunneled (range_server resource5)) no_faults
                example_config "42" tt fs_staged2 = (None, resume_world))
    by (vm_compute; reflexivity).
  assert (Hin : EvDo (resume_request "https://example.org/upgrade" 2)
                  (Some StatusPartialContent) ∈ trace resume_world)
    by in_log.
  destruct (DownloadUpgrade_resume _ _ _ _ _ _ _ _ _ _ _ _ H Hin)
    as (Hrq & _ & _ & T).
  assert (Hmsg : EvNoticeInfo "client upgrade downloaded bytes: 3"
                   ∈ trace resume_world) by in_log.
  split; [exact H |]. split; [exact Hin |]. split; [exact Hrq |].
  exact (T (range_server resource5)
           {| StatusCode := StatusPartialContent;
              Body := {| chunks := [[Byte.x03; Byte.x04]; [Byte.x05]];
                         read_err := None |} |}
           _ eq_refl eq_refl eq_refl Hmsg).
Defined.

Lemma DownloadUpgrade_failure_keeps_partial_witness :
  run unit 900 (tunneled (range_server resource5)) (disk_full_at 4)
    example_config "42" tt fs_staged2 =
    (Some (ContextError (EnvError "no space left on device")),
     disk_full_world) ∧
  (∃ extra, fs disk_full_world !! "upgrade.42.part" =
            Some ([Byte.x01; Byte.x02] ++ extra)) ∧
  fs disk_full_world !! "upgrade" = None ∧
  (∀ r' w' rq st,
     run unit 900 (tunneled (range_server resource5)) no_faults
       example_config "42" tt (fs disk_full_world) = (r', w') →
     EvDo rq st ∈ trace w' →
     rq = resume_request "https://example.org/upgrade" 4).
Proof.
  assert (H : run unit 900 (tunneled (range_server resource5))
                (disk_full_at 4) example_config "42" tt fs_staged2 =
              (Some (ContextError (EnvError "no space left on device")),
               disk_full_world)) by (vm_compute; reflexivity).
  destruct (DownloadUpgrade_failure_keeps_partial _ _ _ _ _ _ _ _ _ _ _
              H eq_refl) as (T0 & T1 & _ & _ & T4 & T5).
  split_and!; [exact H | | exact T4 |].
  - exact (T1 fs_staged2 [Byte.x01; Byte.x02] T0 eq_refl).
  - intros r' w' rq st Hrun Hin.
    exact (T5 unit 900%Z (tunneled (range_server resource5)) no_faults tt
              r' w' rq st Hrun Hin).
Defined.

Lemma DownloadUpgrade_close_before_rename_witness :
  run unit 900 (tunneled (range_server resource5)) no_faults
    example_config "42" tt fs_staged2 = (None, resume_world) ∧
  (forallb (fun e => negb (is_rename e)) (trace resume_world) = true
   ∨ ∃ pre ws msg ok post,
       trace resume_world =
         pre ++ write_events "upgrade.42.part" ws ++
         [EvNoticeInfo msg; EvFileClose (Some "upgrade.42.part") true;
          EvRename "upgrade.42.part" "upgrade" ok] ++ post ∧
       forallb (fun e => negb (is_write e) && negb (is_close e) &&
                         negb (is_rename e)) pre = true ∧
       forallb (fun e => negb (is_write e) && negb (is_rename e)) post = true ∧
       (ok = true →
        fs resume_world !! "upgrade" =
        Some ([Byte.x01; Byte.x02] ++ concat ws.*1)) ∧
       (ok = false →
        fs resume_world !! "upgrade.42.part" =
        Some ([Byte.x01; Byte.x02] ++ concat ws.*1))).
Proof.
  assert (H : run unit 900 (tunneled (range_server resource5)) no_faults
                example_config "42" tt fs_staged2 = (None, resume_world))
    by (vm_compute; reflexivity).
  destruct (DownloadUpgrade_close_before_rename _ _ _ _ _ _ _ _ _ _ H)
    as [T _].
  split; [exact H | exact T].
Defined.


Lemma DownloadUpgrade_success_events_witness :
  run unit 900 (tunneled (range_server resource5)) no_faults
    example_config "42" tt fs_staged2 = (None, resume_world) ∧
  (is_Some (fs_staged2 !! "upgrade") ∧
   trace resume_world =
     [EvStat "upgrade" true; EvNoticeClientUpgradeDownloaded "upgrade"]
   ∨ fs_staged2 !! "upgrade" = None ∧
     ∃ pre body,
       trace resume_world = pre ++
         [EvNoticeInfo ("client upgrade downloaded bytes: " +:+
                        pretty (int64 (Z.of_nat (length body))));
          EvFileClose (Some "upgrade.42.part") true;
          EvRename "upgrade.42.part" "upgrade" true;
          EvNoticeClientUpgradeDownloaded "upgrade";
          EvBodyClose; EvFileClose None false] ∧
       forallb (fun e => negb (is_notice e)) pre = true ∧
       fs resume_world !! "upgrade" = Some ([Byte.x01; Byte.x02] ++ body) ∧
       ((Z.of_nat (length body) < 2 ^ 63)%Z →
        int64 (Z.of_nat (length body)) = Z.of_nat (length body))).
Proof.
  assert (H : run unit 900 (tunneled (range_server resource5)) no_faults
                example_config "42" tt fs_staged2 = (None, resume_world))
    by (vm_compute; reflexivity).
  destruct (DownloadUpgrade_success_events _ _ _ _ _ _ _ _ _ _ H eq_refl)
    as [[[x Hx] _] | T].
  - discriminate Hx.
  - split; [exact H |]. right. exact T.
Defined.

(** * The scenarios of the design document, run on a five-byte resource *)

(** A: nothing on disk, the server sends the whole resource. *)
Example scenario_fresh_download :
  let res := run unit 900 (tunneled (range_server resource5)) no_faults
               example_config "42" tt fs_empty in
  fst res = None ∧
  fs (snd res) !! "upgrade" = Some resource5 ∧
  fs (snd res) !! "upgrade.42.part" = None ∧
  List.filter is_notice (trace (snd res)) =
    [EvNoticeInfo "client upgrade downloaded bytes: 5";
     EvNoticeClientUpgradeDownloaded "upgrade"].
Proof. vm_compute. split_and!; reflexivity. Qed.

(** B: two bytes staged, the server sends the other three. *)
Example scenario_resumed_download :
  fst (run unit 900 (tunneled (range_server resource5)) no_faults
         example_config "42" tt fs_staged2) = None ∧
  fs resume_world !! "upgrade" = Some resource5 ∧
  List.filter is_notice (trace resume_world) =
    [EvNoticeInfo "client upgrade downloaded bytes: 3";
     EvNoticeClientUpgradeDownloaded "upgrade"].
Proof. vm_compute. split_and!; reflexivity. Qed.

(** D: the upgrade is in place; nothing is requested. *)
Example scenario_already_downloaded :
  run unit 900 (tunneled (range_server resource5)) no_faults
    example_config "42" tt fs_done =
  (None, short_circuit "upgrade" fs_done).
Proof. vm_compute. reflexivity. Qed.

(** E: the server answers 404; the staged bytes stay as they are. *)
Example scenario_not_found :
  fst (run unit 900 (tunneled (status_server 404)) no_faults
         example_config "42" tt fs_staged2) =
    Some (ContextError (Errorf "unexpected response status code: 404")) ∧
  fs refused_world = fs_staged2.
Proof. vm_compute. split_and!; reflexivity. Qed.

(** A version change does not reuse the bytes staged for another version:
    the request for version 43 starts at 0. *)
Example scenario_other_version :
  trace (snd (run unit 900 (tunneled (range_server resource5)) no_faults
                example_config "43" tt fs_staged2)) !! 5%nat =
  Some (EvDo (resume_request "https://example.org/upgrade" 0)
          (Some StatusPartialContent)).
Proof. vm_compute. reflexivity. Qed.

(** * Further properties of the code *)

(** ** Why a copy fails *)

(** The copy loop ends with the error of the read that ended the body, or
    with the error of a write of one of the body's non-empty chunks. *)
Lemma copy_loop_error env dst src er :
  ∀ w written d c n err w',
    fds w !! fd (sfw_file dst) = Some (Some d) →
    has_flag (fd_flag d) O_APPEND = true →
    fs w !! fd_name d = Some c →
    copy_loop env dst src er written w = ((n, err), w') →
    err = er ∨
    ∃ size p k e,
      p ∈ src ∧ p ≠ [] ∧ write_fault env size p = Some (k, e) ∧
      err = Some e.
Proof.
  induction src as [|buf rest IH];
    intros w written d c n err w' Hfd Happ Hc Hrun.
  - simpl in Hrun. unfold ret in Hrun. injection Hrun as <- <- <-. by left.
  - simpl in Hrun.
    destruct (0 <? length buf)%nat eqn:Hnr.
    2:{ destruct (IH _ _ _ _ _ _ _ Hfd Happ Hc Hrun)
          as [-> | (size & p & k & e & Hp & Hne & Hw & ->)]; [by left |].
        right. exists size, p, k, e. split_and!; try done.
        apply elem_of_cons. by right. }
    assert (Hbuf : buf ≠ []).
    { intros ->. simpl in Hnr. discriminate Hnr. }
    unfold bind, SyncFileWriter_Write in Hrun.
    destruct (File_Write_append env (sfw_file dst) buf w d c Hfd Happ Hc)
      as (q & ew & Hq & Hw).
    rewrite Hw in Hrun. clear Hw.
    assert (Hlen : fd (sfw_file dst) < length (fds w))
      by (by eapply lookup_lt_Some).
    destruct (write_fault env (length c) buf) as [[k' e']|] eqn:Hfault.
    + injection Hq as -> ->. unfold ret in Hrun.
      injection Hrun as <- <- <-. right.
      exists (length c), buf, k', e'. split_and!; try done.
      apply elem_of_cons. by left.
    + injection Hq as -> ->.
      rewrite Nat.eqb_refl in Hrun. simpl in Hrun.
      eapply IH in Hrun; cycle 1.
      * simpl. by rewrite list_lookup_insert_eq.
      * exact Happ.
      * simpl. by rewrite lookup_insert_eq.
      * destruct Hrun as [-> | (size & p & k & e & Hp & Hne & Hw & ->)];
          [by left |].
        right. exists size, p, k, e. split_and!; try done.
        apply elem_of_cons. by right.
Qed.

(** A body without bytes is copied without a write, whatever the disk. *)
Lemma copy_loop_error_empty env dst src er w written d c n err w' :
  fds w !! fd (sfw_file dst) = Some (Some d) →
  has_flag (fd_flag d) O_APPEND = true →
  fs w !! fd_name d = Some c →
  concat src = [] →
  copy_loop env dst src er written w = ((n, err), w') →
  err = er.
Proof.
  intros Hfd Happ Hc Hsrc Hrun.
  destruct (copy_loop_error _ _ _ _ _ _ _ _ _ _ _ Hfd Happ Hc Hrun)
    as [-> | (size & p & k & e & Hp & Hne & _)]; [done |].
  exfalso. apply Hne.
  clear -Hp Hsrc. induction src as [|b src IH]; [by apply elem_of_nil in Hp |].
  simpl in Hsrc. apply app_eq_nil in Hsrc. destruct Hsrc as [-> Hsrc].
  apply elem_of_cons in Hp. destruct Hp as [-> | Hp]; [done | by apply IH].
Qed.

Ltac close_later :=
  first [ erewrite File_Close_open by reflexivity
        | erewrite File_Close_closed by reflexivity ].

Section Further.

Variable Tunnel : Type.
Variable TIMEOUT : Z.
Variable mk : Config → Tunnel → Z → result HttpClient.
Variable env : Env.
Variable config : Config.
Variable version : string.
Variable tunnel : Tunnel.
Variable f0 : FS.

Local Abbreviation final := (UpgradeDownloadFilename config).
Local Abbreviation url := (UpgradeDownloadUrl config).
Local Abbreviation part := (partialFilename_of final version).
Local Abbreviation flag := (Z.lor (Z.lor O_CREATE O_APPEND) O_WRONLY).
Local Abbreviation c0 := (default [] (f0 !! part)).
Local Abbreviation req := (resume_request url (length c0)).
Local Abbreviation run0 := (run Tunnel TIMEOUT mk env config version tunnel f0).
Local Abbreviation Cause :=
  (Cause Tunnel TIMEOUT mk env config version tunnel f0).

(** The error a run returns, by the step that produced it. *)
Lemma run_error_cause r w :
  run0 = (r, w) →
  match r with
  | None => True
  | Some e => ∃ cause, e = ContextError cause ∧ Cause cause
  end.
Proof.
  unfold run, DownloadUpgrade, initial.
  unfold bind at 1. unfold os_Stat, bind, get_fs, log, ret,
    NoticeClientUpgradeDownloaded. simpl.
  destruct (f0 !! final) as [cf|] eqn:Hfinal; simpl.
  { by intros [= <- <-]. }
  unfold try, bind, MakeTunneledHttpClient, log, ret. simpl.
  destruct (mk config tunnel TIMEOUT) as [c|e] eqn:Hmk; simpl.
  2:{ intros [= <- <-]. exists e. split; [done | by apply Cause_client]. }
  destruct (open_fault env) as [e|] eqn:Hopen.
  { unfold os_OpenFile, bind, log, ret. rewrite Hopen. simpl.
    intros [= <- <-]. exists e. split; [done | by apply Cause_open]. }
  rewrite os_OpenFile_staging by done. simpl.
  unfold defer, try, bind.
  unfold File_Stat, bind, get_fds, get_fs, log, ret. simpl.
  destruct (fstat_fault env) as [e|] eqn:Hstat; simpl.
  { intros [= <- <-]. exists e. split; [done | by apply Cause_stat]. }
  rewrite opened_lookup. simpl.
  unfold http_NewRequest, bind, log, ret.
  destruct (url_fault env url) as [e|] eqn:Hurl; simpl.
  { intros [= <- <-]. exists e. split; [done | by apply Cause_request]. }
  unfold Client_Do, bind, log, ret.
  change (Header_Add {| Method := "GET"; URL := url; Header := [] |} "Range"
            (range_of (Z.of_nat (length c0)))) with req.
  destruct (Do c req) as [resp|e] eqn:Hdo; simpl.
  2:{ intros [= <- <-]. exists e. split; [done |].
      by eapply Cause_transport. }
  destruct (negb (StatusCode resp =? StatusPartialContent)%Z &&
            negb (StatusCode resp =? StatusRequestedRangeNotSatisfiable)%Z)
    eqn:Hstatus; simpl.
  { intros [= <- <-]. eexists. split; [done |].
    eapply Cause_status; [done.. |].
    rewrite <- accepted_test. by rewrite Hstatus. }
  apply accepted_test in Hstatus.
  match goal with
  | |- context [io_Copy ?e ?d ?b ?wc] =>
    destruct (io_Copy e d b wc) as [[n err] w3] eqn:Hcopy
  end.
  unfold io_Copy in Hcopy.
  pose proof Hcopy as Hwhy.
  eapply (copy_loop_error _ _ _ _ _ _
            {| fd_name := part; fd_flag := flag; fd_off := 0 |} c0) in Hwhy;
    [| reflexivity | reflexivity | apply opened_lookup].
  eapply (copy_loop_spec _ _ _ _ _ _ 0
            {| fd_name := part; fd_flag := flag; fd_off := 0 |} c0) in Hcopy;
    [| reflexivity | reflexivity | apply opened_lookup | reflexivity].
  destruct Hcopy
    as (ws & d3 & Hfs & Hfds & Hname & Hflag & Htr & Hh & Hn & Hpre & Hok).
  destruct w3 as [fs3 fds3 tr3 h3].
  simpl in Hfs, Hfds, Hname, Hflag, Htr, Hh, Hn.
  subst fs3 fds3 tr3 h3 n.
  destruct err as [e|]; unfold check, ret; simpl.
  { intros [= <- <-]. exists e. split; [done |].
    destruct Hwhy as [Hr | (size & p & k & e' & Hp & Hne & Hw & [= ->])].
    - by eapply Cause_read.
    - by eapply Cause_write. }
  rewrite (File_Close_open env _ d3) by reflexivity.
  destruct (close_fault env) as [e|] eqn:Hclose; simpl.
  { intros [= <- <-]. exists e. split; [done | by apply Cause_close]. }
  unfold os_Rename, bind, get_fs, set_fs, log, ret.
  destruct (rename_fault env) as [e|] eqn:Hrename; simpl.
  { intros [= <- <-]. exists e. split; [done | by apply Cause_rename]. }
  rewrite Hname, lookup_insert_eq. simpl.
  by intros [= <- <-].
Qed.

(** ** What a run leaves alone *)

Lemma staged_frame name f c qs h other :
  other ≠ name →
  h ∈ hist_opened name f ++ snapshots name (opened name f) c qs →
  h !! other = f !! other.
Proof.
  intros Hne [Hh | Hh]%elem_of_app.
  - destruct (hist_opened_spec _ _ _ Hh) as [-> | ->]; [done |].
    by apply opened_lookup_ne.
  - destruct (snapshots_spec _ _ _ _ _ Hh) as (q & _ & ->).
    rewrite lookup_insert_ne by done. by apply opened_lookup_ne.
Qed.

Lemma run_frame r w other h :
  run0 = (r, w) →
  other ≠ part →
  other ≠ final →
  h = fs w ∨ h ∈ hist w →
  h !! other = f0 !! other.
Proof.
  intros H Hp Hf [-> | Hh]; revert H.
  all: intros H.
  - run_cases H; cbn [fs]; try done.
    1-4: by apply opened_lookup_ne.
    1-3: rewrite lookup_insert_ne by done; by apply opened_lookup_ne.
    rewrite lookup_insert_ne, lookup_delete_ne, lookup_insert_ne by done.
    by apply opened_lookup_ne.
  - run_cases H; cbn [hist] in Hh.
    1-3: apply list_elem_of_singleton in Hh; by subst h.
    1-4: by apply (staged_frame part f0 c0 [] h other).
    1-3: by apply (staged_frame part f0 c0 ws.*1 h other).
    rewrite app_assoc in Hh. apply elem_of_app in Hh.
    destruct Hh as [Hh | Hh].
    + by apply (staged_frame part f0 c0 ws.*1 h other).
    + apply list_elem_of_singleton in Hh. subst h.
      rewrite lookup_insert_ne, lookup_delete_ne, lookup_insert_ne by done.
      by apply opened_lookup_ne.
Qed.

(** X1. A run touches two paths only, the staging path and the final
    path: any other path holds, in every state the run goes through and
    at its end, what it held at the start. *)
Theorem DownloadUpgrade_frame r w other :
  run0 = (r, w) →
  other ≠ part →
  other ≠ final →
  fs w !! other = f0 !! other ∧
  ∀ h, h ∈ hist w → h !! other = f0 !! other.
Proof.
  intros H Hp Hf. split.
  - apply (run_frame r w other (fs w) H Hp Hf). by left.
  - intros h Hh. apply (run_frame r w other h H Hp Hf). by right.
Qed.

Lemma delete_opened name (f : FS) : delete name (opened name f) = delete name f.
Proof.
  unfold opened. destruct (f !! name); [done |]. by rewrite delete_insert_eq.
Qed.

(** X2. After a successful download the file system is the initial one
    with the staging file removed and, at the final path, the bytes that
    were staged followed by the whole body of the answer. *)
Theorem DownloadUpgrade_success_state r w :
  run0 = (r, w) →
  r = None →
  f0 !! final = None →
  ∃ c resp,
    mk config tunnel TIMEOUT = Ok c ∧
    Do c req = Ok resp ∧
    read_err (Body resp) = None ∧
    fs w = <[final := c0 ++ concat (chunks (Body resp))]> (delete part f0).
Proof.
  intros H Hr Hf. run_cases H; try discriminate Hr; [congruence |].
  exists cl, rsp. split_and!; try done.
  cbn [fs]. by rewrite delete_insert_eq, delete_opened, Hall.
Qed.

(** X3. Whatever happens, a run releases what it acquires.  At its end no
    descriptor is open; every open that yielded a descriptor is matched
    by exactly one close that releases it; and the body of every answer
    received is closed exactly once, on the path of the unexpected status
    as on the others. *)
Theorem DownloadUpgrade_releases :
  Forall (fun d => d = None) (fds (snd run0)) ∧
  length (List.filter is_released (trace (snd run0))) =
    length (List.filter is_opened (trace (snd run0))) ∧
  length (List.filter is_body_close (trace (snd run0))) =
    length (List.filter is_response (trace (snd run0))) ∧
  (length (List.filter is_opened (trace (snd run0))) ≤ 1)%nat ∧
  (length (List.filter is_response (trace (snd run0))) ≤ 1)%nat.
Proof.
  destruct (run Tunnel TIMEOUT mk env config version tunnel f0)
    as [r w] eqn:H.
  run_cases H; cbn [snd fds trace]; split_and!.
  all: try (repeat constructor; fail).
  all: simpl; rewrite ?List.filter_app, ?filter_write_events by done;
    simpl; lia.
Qed.

(** ** Requests, errors and results *)

(** X4. A run sends at most one request, there is no retry, and it sends
    one exactly when the final file is missing and the construction of
    the client, the open and the stat of the staging file and the
    construction of the request all succeed. *)
Theorem DownloadUpgrade_single_request :
  (length (List.filter is_do (trace (snd run0))) ≤ 1)%nat ∧
  ((∃ rq st, EvDo rq st ∈ trace (snd run0)) ↔
   f0 !! final = None ∧
   (∃ c, mk config tunnel TIMEOUT = Ok c) ∧
   open_fault env = None ∧
   fstat_fault env = None ∧
   url_fault env url = None).
Proof.
  destruct (run Tunnel TIMEOUT mk env config version tunnel f0)
    as [r w] eqn:H.
  run_cases H; cbn [snd trace]; split.
  all: try (simpl; rewrite ?List.filter_app, ?filter_write_events by done;
            simpl; lia).
  all: split;
    [ intros (rq & st & Hin);
      first [ by mem_inv Hin | split_and!; eauto ]
    | intros (Hf & [c Hc] & Ho & Hs & Hu);
      first [ congruence | eexists _, _; repeat constructor ] ].
Qed.


(** X6. The result tells where things stand: a run returns [nil] exactly
    when a file is at the final path at its end, and exactly when it has
    emitted the notice that the upgrade is downloaded. *)
Theorem DownloadUpgrade_result_means_published :
  (fst run0 = None ↔ is_Some (fs (snd run0) !! final)) ∧
  (fst run0 = None ↔
   EvNoticeClientUpgradeDownloaded final ∈ trace (snd run0)).
Proof.
  destruct (run Tunnel TIMEOUT mk env config version tunnel f0)
    as [r w] eqn:H.
  assert (Hne : final ≠ part) by (symmetry; apply partialFilename_neq).
  run_cases H; cbn [fst snd fs trace]; split; split.
  all: try done.
  all: try (intros Hin; by mem_inv Hin).
  all: try (intros _; repeat constructor; fail).
  all: try (intros _; rewrite ?lookup_insert_eq; by eexists).
  all: try match goal with
           | |- is_Some _ → _ =>
             intros [x Hx];
             rewrite ?lookup_insert_ne in Hx by done;
             rewrite ?opened_lookup_ne in Hx by done; congruence
           end.
  intros _. do 6 (apply elem_of_cons; right).
  apply elem_of_app. right. repeat constructor.
Qed.

(** ** Versions *)

Lemma string_app_inj_l (a x y : string) : a +:+ x = a +:+ y → x = y.
Proof.
  induction a as [|ch a IH]; simpl; [done |]. intros [= H]. by apply IH.
Qed.

Lemma string_app_inj_r (s x y : string) : x +:+ s = y +:+ s → x = y.
Proof.
  revert y. induction x as [|a x IH]; intros [|b y]; simpl; intros H.
  - done.
  - apply (f_equal String.length) in H.
    rewrite !string_length_app in H. simpl in H. lia.
  - apply (f_equal String.length) in H.
    rewrite !string_length_app in H. simpl in H. lia.
  - injection H as -> H. f_equal. by apply IH.
Qed.

(** Two versions of one upgrade file never share a staging file. *)
Lemma partialFilename_inj (filename v v' : string) :
  partialFilename_of filename v = partialFilename_of filename v' → v = v'.
Proof.
  unfold partialFilename_of. intros H.
  apply string_app_inj_l in H. simpl in H. injection H as H.
  exact (string_app_inj_r ".part" v v' H).
Qed.

(** X7. The version is part of the name of the staging file, and names for
    different versions differ.  So a run for one version neither reads nor
    changes what is staged for another: that file holds, in every state of
    the run and at its end, what it held at the start; it is not reused
    and it is not cleaned up either. *)
Theorem DownloadUpgrade_version_isolation r w other_version :
  run0 = (r, w) →
  other_version ≠ version →
  partialFilename_of final other_version ≠ part ∧
  fs w !! partialFilename_of final other_version =
    f0 !! partialFilename_of final other_version ∧
  ∀ h, h ∈ hist w →
    h !! partialFilename_of final other_version =
    f0 !! partialFilename_of final other_version.
Proof.
  intros H Hv.
  assert (Hp : partialFilename_of final other_version ≠ part).
  { intros Heq. by apply Hv, (partialFilename_inj final). }
  assert (Hf : partialFilename_of final other_version ≠ final)
    by apply partialFilename_neq.
  split_and!; [done | |].
  - apply (run_frame r w _ (fs w) H Hp Hf). by left.
  - intros h Hh. apply (run_frame r w _ h H Hp Hf). by right.
Qed.

(** ** Runs without an answer *)

(** X8. A run that finds no final file and gets no answer, because the
    client, the open, the stat, the request or the transport failed,
    returns an error and changes nothing on disk but this: once the open
    has succeeded, a staging file that was missing exists, empty.  Before
    the open, the file system is untouched. *)
Theorem DownloadUpgrade_unanswered r w :
  run0 = (r, w) →
  f0 !! final = None →
  (∀ rq st, EvDo rq (Some st) ∉ trace w) →
  (∃ e, r = Some e) ∧
  (EvOpenFile part flag 384 true ∈ trace w →
   fs w = opened part f0 ∧ fs w !! part = Some c0 ∧
   (f0 !! part = None → fs w = <[part := []]> f0)) ∧
  (EvOpenFile part flag 384 true ∉ trace w → fs w = f0).
Proof.
  intros H Hf Hno.
  assert (Hcr : f0 !! part = None → opened part f0 = <[part := []]> f0).
  { intros Hp. unfold opened. by rewrite Hp. }
  run_cases H; cbn [fs trace] in *; try congruence.
  (* an answer is in the log: excluded *)
  all: try (exfalso; eapply Hno; do 5 (apply elem_of_cons; right);
            apply elem_of_cons; left; reflexivity).
  (* before the open *)
  1-2: split_and!; [by eexists | intros Hin; by mem_inv Hin | done].
  (* after the open *)
  all: split_and!;
    [ by eexists
    | intros _; split_and!; [done | apply opened_lookup | done]
    | intros Hn; exfalso; apply Hn; repeat constructor ].
Qed.

End Further.

(** ** Resuming against a server that honours ranges *)

Lemma prefix_app_drop (l1 l : bytes) :
  l1 `prefix_of` l → l1 ++ drop (length l1) l = l.
Proof. intros [k ->]. by rewrite drop_app_length. Qed.

(** What such a server sends for the bytes staged so far. *)
Lemma honoured_answer c url resource staged :
  honours_range c url resource →
  staged `prefix_of` resource →
  ∃ resp,
    Do c (resume_request url (length staged)) = Ok resp ∧
    accepted (StatusCode resp) ∧
    staged ++ concat (chunks (Body resp)) `prefix_of` resource ∧
    (read_err (Body resp) = None →
     staged ++ concat (chunks (Body resp)) = resource).
Proof.
  intros Hh Hp.
  destruct (Hh (length staged) (prefix_length _ _ Hp)) as (resp & Hdo & Hc).
  exists resp. split; [done |].
  destruct (length staged <? length resource)%nat eqn:Hlt.
  - destruct Hc as (Hst & Hpre & Hall). split_and!.
    + by left.
    + rewrite <- (prefix_app_drop staged resource Hp).
      by apply prefix_app.
    + intros He. rewrite (Hall He). by apply prefix_app_drop.
  - destruct Hc as (Hst & Hempty). rewrite Hempty, app_nil_r.
    apply Nat.ltb_ge in Hlt. split_and!.
    + by right.
    + done.
    + intros _. by apply prefix_length_eq.
Qed.

(** One run keeps a file system resumable, and a run that returns [nil]
    leaves the resource at the final path. *)
Lemma run_resumable Tunnel TIMEOUT mk env config version tunnel resource
  (f : FS) r w :
  (∀ c, mk config tunnel TIMEOUT = Ok c →
        honours_range c (UpgradeDownloadUrl config) resource) →
  resumable config version resource f →
  run Tunnel TIMEOUT mk env config version tunnel f = (r, w) →
  resumable config version resource (fs w) ∧
  (r = None → fs w !! UpgradeDownloadFilename config = Some resource).
Proof.
  intros Hhon [Hdone | [Hf Hstaged]] H.
  { rewrite run_present in H by (by eexists).
    injection H as <- <-. split; [by left | done]. }
  assert (Hne : UpgradeDownloadFilename config ≠
                partialFilename_of (UpgradeDownloadFilename config) version)
    by (symmetry; apply partialFilename_neq).
  assert (Hkeep : ∀ q,
    default [] (f !! partialFilename_of (UpgradeDownloadFilename config)
                       version) ++ q `prefix_of` resource →
    resumable config version resource
      (<[partialFilename_of (UpgradeDownloadFilename config) version :=
           default [] (f !! partialFilename_of
                              (UpgradeDownloadFilename config) version) ++ q]>
         (opened (partialFilename_of (UpgradeDownloadFilename config) version)
            f))).
  { intros q Hq. right. split.
    - rewrite lookup_insert_ne by done. by rewrite opened_lookup_ne.
    - by rewrite lookup_insert_eq. }
  assert (Hop : resumable config version resource
            (opened (partialFilename_of (UpgradeDownloadFilename config)
                       version) f)).
  { right. split; [by rewrite opened_lookup_ne |].
    by rewrite opened_lookup. }
  run_cases H; cbn [fs]; try congruence.
  1-2: split; [right; by split | discriminate].
  1-4: split; [exact Hop | discriminate].
  all: destruct (honoured_answer _ _ _ _ (Hhon _ Hmk) Hstaged)
         as (resp & Hdo' & _ & Hbody & Hwhole);
    rewrite Hdo in Hdo'; injection Hdo' as <-.
  - split; [| discriminate]. apply Hkeep.
    destruct Hpre as [k Hk]. rewrite Hk, app_assoc in Hbody.
    by eapply prefix_app_l.
  - split; [| discriminate]. apply Hkeep. by rewrite Hall.
  - split; [| discriminate]. apply Hkeep. by rewrite Hall.
  - rewrite Hall, (Hwhole Heof). unfold resumable.
    rewrite lookup_insert_eq. split; [by left | done].
Qed.

(** With such a server and nothing failing, a run cannot return an error. *)
Lemma run_fault_free Tunnel TIMEOUT mk env config version tunnel resource
  (f : FS) c r w :
  mk config tunnel TIMEOUT = Ok c →
  honours_range c (UpgradeDownloadUrl config) resource →
  fault_free env c →
  default [] (f !! partialFilename_of (UpgradeDownloadFilename config) version)
    `prefix_of` resource →
  run Tunnel TIMEOUT mk env config version tunnel f = (r, w) →
  r = None.
Proof.
  intros Hmk Hhon (Ho & Hs & Hu & Hw & Hc & Hr & Hb) Hpre H.
  destruct r as [e|]; [exfalso | done].
  destruct (run_error_cause _ _ _ _ _ _ _ _ _ _ H) as (cause & _ & HC).
  destruct (honoured_answer _ _ _ _ Hhon Hpre) as (resp & Hdo & Hacc & _).
  destruct HC as [e' He | e' He | e' He | e' He | c' e' Hm He
                 | c' resp' Hm He Hna | c' resp' e' Hm He _ Hre
                 | c' resp' size p k e' Hm He _ _ _ Hwf | e' He | e' He];
    try (specialize (Hu (UpgradeDownloadUrl config)); congruence).
  all: try match goal with
           | Hwf : write_fault _ _ _ = Some _ |- _ =>
             rewrite Hw in Hwf; discriminate Hwf
           | Hre : read_err _ = Some _, He : Do ?c' _ = Ok _ |- _ =>
             replace c' with c in He by congruence;
             rewrite (Hb _ _ He) in Hre; discriminate Hre
           end.
Qed.

(** X9. With a server that honours ranges and nothing failing, one run
    from staged bytes that are a first part of the resource, all of it
    possibly, completes the download: it returns [nil], and the file
    system is the initial one with the staging file removed and exactly
    the resource at the final path. *)
Theorem DownloadUpgrade_resume_completes Tunnel TIMEOUT mk env config version
  tunnel resource (f : FS) c r w :
  mk config tunnel TIMEOUT = Ok c →
  honours_range c (UpgradeDownloadUrl config) resource →
  fault_free env c →
  f !! UpgradeDownloadFilename config = None →
  default [] (f !! partialFilename_of (UpgradeDownloadFilename config) version)
    `prefix_of` resource →
  run Tunnel TIMEOUT mk env config version tunnel f = (r, w) →
  r = None ∧
  fs w = <[UpgradeDownloadFilename config := resource]>
           (delete (partialFilename_of (UpgradeDownloadFilename config)
                      version) f).
Proof.
  intros Hcl Hhon Hff Hf Hstaged H.
  pose proof (run_fault_free _ _ _ _ _ _ _ _ _ _ _ _ Hcl Hhon Hff Hstaged H)
    as ->.
  split; [done |].
  destruct (honoured_answer _ _ _ _ Hhon Hstaged)
    as (resp & Hdo' & _ & _ & Hwhole).
  remember None as r eqn:Hr in H.
  run_cases H; try discriminate Hr; [congruence |].
  assert (cl = c) as -> by congruence.
  assert (rsp = resp) as -> by congruence.
  cbn [fs]. by rewrite delete_insert_eq, delete_opened, Hall, (Hwhole Heof).
Qed.

Lemma reruns_resumable Tunnel TIMEOUT attempts config version tunnel
  resource :
  ∀ f : FS,
    (∀ mk env c, (mk, env) ∈ attempts →
       mk config tunnel TIMEOUT = Ok c →
       honours_range c (UpgradeDownloadUrl config) resource) →
    resumable config version resource f →
    resumable config version resource
      (reruns Tunnel TIMEOUT attempts config version tunnel f).
Proof.
  induction attempts as [|[mk env] rest IH]; intros f Hhon Hf; [done |].
  simpl. apply IH.
  - intros mk' env' c' Hin. apply (Hhon mk' env').
    apply elem_of_cons. by right.
  - destruct (run Tunnel TIMEOUT mk env config version tunnel f)
      as [r w] eqn:H. simpl.
    assert (Hh : ∀ c, mk config tunnel TIMEOUT = Ok c →
                      honours_range c (UpgradeDownloadUrl config) resource).
    { intros c. apply (Hhon mk env). apply elem_of_cons. by left. }
    apply (run_resumable _ _ _ _ _ _ _ _ _ _ _ Hh Hf H).
Qed.

(** X10. Interrupted runs add up.  After any number of runs, each with its
    own faults, against servers that honour ranges for one resource, the
    file system is still resumable, and one more run in which nothing
    fails returns [nil] with exactly the resource at the final path. *)
Theorem DownloadUpgrade_reruns_complete Tunnel TIMEOUT attempts mk env config
  version tunnel resource (f : FS) c r w :
  (∀ mk' env' c', (mk', env') ∈ attempts →
     mk' config tunnel TIMEOUT = Ok c' →
     honours_range c' (UpgradeDownloadUrl config) resource) →
  resumable config version resource f →
  mk config tunnel TIMEOUT = Ok c →
  honours_range c (UpgradeDownloadUrl config) resource →
  fault_free env c →
  run Tunnel TIMEOUT mk env config version tunnel
    (reruns Tunnel TIMEOUT attempts config version tunnel f) = (r, w) →
  resumable config version resource
    (reruns Tunnel TIMEOUT attempts config version tunnel f) ∧
  r = None ∧
  fs w !! UpgradeDownloadFilename config = Some resource.
Proof.
  intros Hall Hf Hmk Hhon Hff H.
  pose proof (reruns_resumable _ _ _ _ _ _ _ _ Hall Hf) as Hres.
  split; [done |].
  assert (r = None) as ->.
  { destruct Hres as [Hdone | [_ Hpre]].
    - rewrite run_present in H by (by eexists). by injection H as <- _.
    - by eapply run_fault_free. }
  split; [done |].
  assert (Hh : ∀ c', mk config tunnel TIMEOUT = Ok c' →
                     honours_range c' (UpgradeDownloadUrl config) resource).
  { intros c' Hc'. assert (c' = c) as -> by congruence. exact Hhon. }
  by apply (run_resumable _ _ _ _ _ _ _ _ _ _ _ Hh Hres H).
Qed.

(** ** The answer 416 without a body *)

(** X11. When the answer is a 416 whose body has no bytes and the close
    and the rename succeed, the run only finalises: it writes nothing,
    whatever the state of the disk, reports 0 bytes, returns [nil], and
    the file system is the initial one with the staging file moved, as it
    was, to the final path. *)
Theorem DownloadUpgrade_416_empty_finalizes Tunnel TIMEOUT mk env config
  version tunnel (f : FS) c resp r w :
  f !! UpgradeDownloadFilename config = None →
  mk config tunnel TIMEOUT = Ok c →
  open_fault env = None →
  fstat_fault env = None →
  url_fault env (UpgradeDownloadUrl config) = None →
  Do c (resume_request (UpgradeDownloadUrl config)
          (length (default []
             (f !! partialFilename_of (UpgradeDownloadFilename config)
                     version)))) = Ok resp →
  StatusCode resp = StatusRequestedRangeNotSatisfiable →
  concat (chunks (Body resp)) = [] →
  read_err (Body resp) = None →
  close_fault env = None →
  rename_fault env = None →
  run Tunnel TIMEOUT mk env config version tunnel f = (r, w) →
  r = None ∧
  EvNoticeInfo "client upgrade downloaded bytes: 0" ∈ trace w ∧
  fs w = <[UpgradeDownloadFilename config :=
             default [] (f !! partialFilename_of
                                (UpgradeDownloadFilename config) version)]>
           (delete (partialFilename_of (UpgradeDownloadFilename config)
                      version) f).
Proof.
  intros Hf Hcl Ho Hs Hu Hanswer H416 Hempty Hread Hc Hr H.
  assert (r = None) as ->.
  { destruct r as [e|]; [exfalso | done].
    destruct (run_error_cause _ _ _ _ _ _ _ _ _ _ H) as (cause & _ & HC).
    destruct HC as [e' He | e' He | e' He | e' He | c' e' Hm He
                   | c' resp' Hm He Hna | c' resp' e' Hm He _ Hre
                   | c' resp' size p k e' Hm He _ Hp Hne _ | e' He | e' He];
      try congruence.
    all: assert (c' = c) as -> by congruence.
    all: assert (resp' = resp) as -> by congruence.
    { apply Hna. by right. }
    apply Hne. clear -Hp Hempty.
    induction (chunks (Body resp)) as [|b src IH];
      [by apply elem_of_nil in Hp |].
    simpl in Hempty. apply app_eq_nil in Hempty. destruct Hempty as [-> Hs].
    apply elem_of_cons in Hp. destruct Hp as [-> | Hp]; [done | by apply IH]. }
  split; [done |].
  remember None as r eqn:Heq in H.
  run_cases H; try discriminate Heq; [congruence |].
  assert (cl = c) as -> by congruence.
  assert (rsp = resp) as -> by congruence.
  cbn [fs trace]. rewrite Hall, Hempty, app_nil_r. split.
  - do 6 (apply elem_of_cons; right). apply elem_of_app. right.
    apply elem_of_cons. by left.
  - by rewrite delete_insert_eq, delete_opened.
Qed.

(** ** The build script: [strip_architectures] *)

Lemma string_prefix_refl (s : string) : String.prefix s s = true.
Proof.
  induction s as [|a s IH]; simpl; [done |].
  destruct (Ascii.ascii_dec a a) as [_ | Hne]; [exact IH | by destruct Hne].
Qed.

(** A text occurs in itself. *)
Lemma occurs_in_refl (s : string) : occurs_in s s = true.
Proof.
  destruct s as [|a s]; [done |]. cbn [occurs_in].
  by rewrite string_prefix_refl.
Qed.

(** X12. [strip_architectures] strips nothing.  Its loop runs once, over
    the whole list of valid architectures as one word, and that word
    occurs in the list, so the test that guards the stripping fails:
    whatever the two lists, the binary and the answers of [lipo], the
    function never runs [lipo -remove] and echoes nothing.  It runs the
    [lipo -info] pipeline and returns 0, unless the pipeline fails, in
    which case [set -e] ends the script with the pipeline's status. *)
Theorem strip_architectures_strips_nothing ios_archs simulator_archs tools
  binary st :
  strip_architectures ios_archs simulator_archs tools binary st =
  (if (snd (lipo_info tools binary) =? 0)%Z then ShReturn 0
   else ShExit (snd (lipo_info tools binary)),
   {| sh_cmds := sh_cmds st ++
                 [["lipo"; "-info"; binary]; ["rev"];
                  ["cut"; "-d"; ":"; "-f1"]; ["rev"]];
      sh_echo := sh_echo st |}).
Proof.
  unfold strip_architectures.
  destruct (lipo_info tools binary) as [archs status]. simpl.
  unfold sh_run. simpl. rewrite <- !app_assoc. simpl.
  destruct (status =? 0)%Z; simpl; [| done].
  by rewrite occurs_in_refl.
Qed.

(** * The further properties at concrete inputs *)

Lemma quiet_range_server_honours :
  honours_range (quiet_range_server resource5)
    "https://example.org/upgrade" resource5.
Proof.
  intros L HL.
  assert (L = 0 ∨ L = 1 ∨ L = 2 ∨ L = 3 ∨ L = 4 ∨ L = 5)%nat
    as [-> | [-> | [-> | [-> | [-> | ->]]]]] by (simpl in HL; lia).
  all: eexists; split; [vm_compute; reflexivity |]; simpl.
  1-5: split_and!; [reflexivity | by exists [] | reflexivity].
  split; reflexivity.
Qed.

Lemma quiet_range_server_fault_free :
  fault_free no_faults (quiet_range_server resource5).
Proof.
  unfold fault_free. split_and!; try done.
  intros rq resp. unfold quiet_range_server, range_server. simpl.
  destruct (Header rq) as [|[k v] [|]]; simpl.
  - intros [= <-]. reflexivity.
  - repeat match goal with
           | |- context [String.eqb ?a ?b] => destruct (String.eqb a b)
           end; simpl; intros [= <-]; reflexivity.
  - intros [= <-]. reflexivity.
Qed.

Lemma DownloadUpgrade_frame_witness :
  run unit 900 (tunneled (range_server resource5)) no_faults
    example_config "42" tt fs_mixed = (None, mixed_world) ∧
  "notes.txt" ≠ "upgrade.42.part" ∧
  "notes.txt" ≠ "upgrade" ∧
  fs mixed_world !! "notes.txt" = Some [Byte.x6e] ∧
  ∀ h, h ∈ hist mixed_world → h !! "notes.txt" = Some [Byte.x6e].
Proof.
  assert (H : run unit 900 (tunneled (range_server resource5)) no_faults
                example_config "42" tt fs_mixed = (None, mixed_world))
    by (vm_compute; reflexivity).
  assert (Hp : "notes.txt" ≠ "upgrade.42.part") by discriminate.
  assert (Hf : "notes.txt" ≠ "upgrade") by discriminate.
  destruct (DownloadUpgrade_frame _ _ _ _ _ _ _ _ _ _ "notes.txt" H Hp Hf)
    as [T1 T2].
  split_and!; [exact H | exact Hp | exact Hf | exact T1 | exact T2].
Defined.

Lemma DownloadUpgrade_success_state_witness :
  run unit 900 (tunneled (range_server resource5)) no_faults
    example_config "42" tt fs_staged2 = (None, resume_world) ∧
  fs_staged2 !! "upgrade" = None ∧
  ∃ c resp,
    tunneled (range_server resource5) example_config tt 900 = Ok c ∧
    Do c (resume_request "https://example.org/upgrade" 2) = Ok resp ∧
    read_err (Body resp) = None ∧
    fs resume_world =
      <["upgrade" := [Byte.x01; Byte.x02] ++ concat (chunks (Body resp))]>
        (delete "upgrade.42.part" fs_staged2).
Proof.
  assert (H : run unit 900 (tunneled (range_server resource5)) no_faults
                example_config "42" tt fs_staged2 = (None, resume_world))
    by (vm_compute; reflexivity).
  assert (Hf : fs_staged2 !! "upgrade" = None) by reflexivity.
  split_and!; [exact H | exact Hf |].
  exact (DownloadUpgrade_success_state _ _ _ _ _ _ _ _ _ _ H eq_refl Hf).
Defined.


Lemma DownloadUpgrade_version_isolation_witness :
  run unit 900 (tunneled (range_server resource5)) no_faults
    example_config "42" tt fs_mixed = (None, mixed_world) ∧
  "41" ≠ "42" ∧
  fs mixed_world !! "upgrade.41.part" = Some [Byte.x09] ∧
  ∀ h, h ∈ hist mixed_world → h !! "upgrade.41.part" = Some [Byte.x09].
Proof.
  assert (H : run unit 900 (tunneled (range_server resource5)) no_faults
                example_config "42" tt fs_mixed = (None, mixed_world))
    by (vm_compute; reflexivity).
  assert (Hv : "41" ≠ "42") by discriminate.
  destruct (DownloadUpgrade_version_isolation _ _ _ _ _ _ _ _ _ _ "41" H Hv)
    as (_ & T1 & T2).
  split_and!; [exact H | exact Hv | exact T1 | exact T2].
Defined.

Lemma DownloadUpgrade_unanswered_witness :
  run unit 900 (tunneled broken_client) no_faults example_config "42" tt
    fs_empty =
    (Some (ContextError (EnvError "connection reset")), broken_world) ∧
  fs_empty !! "upgrade" = None ∧
  (∀ rq st, EvDo rq (Some st) ∉ trace broken_world) ∧
  fs broken_world = <["upgrade.42.part" := []]> fs_empty.
Proof.
  assert (H : run unit 900 (tunneled broken_client) no_faults example_config
                "42" tt fs_empty =
              (Some (ContextError (EnvError "connection reset")),
               broken_world)) by (vm_compute; reflexivity).
  assert (Hf : fs_empty !! "upgrade" = None) by reflexivity.
  assert (Hno : ∀ rq st, EvDo rq (Some st) ∉ trace broken_world).
  { assert (Ht : trace broken_world =
      [EvStat "upgrade" false; EvMakeTunneledHttpClient 900 true;
       EvOpenFile "upgrade.42.part" 1089 384 true;
       EvFileStat "upgrade.42.part" true;
       EvNewRequest "GET" "https://example.org/upgrade" true;
       EvDo (resume_request "https://example.org/upgrade" 0) None;
       EvFileClose (Some "upgrade.42.part") true])
      by (vm_compute; reflexivity).
    intros rq st Hin. rewrite Ht in Hin. mem_inv Hin. }
  assert (Hop : EvOpenFile "upgrade.42.part"
                  (Z.lor (Z.lor O_CREATE O_APPEND) O_WRONLY) 384 true
                  ∈ trace broken_world) by in_log.
  destruct (DownloadUpgrade_unanswered _ _ _ _ _ _ _ _ _ _ H Hf Hno)
    as (_ & T & _).
  destruct (T Hop) as (_ & _ & T3).
  split_and!; [exact H | exact Hf | exact Hno | exact (T3 eq_refl)].
Defined.

Lemma DownloadUpgrade_resume_completes_witness :
  tunneled (quiet_range_server resource5) example_config tt 900 =
    Ok (quiet_range_server resource5) ∧
  fs_staged2 !! "upgrade" = None ∧
  [Byte.x01; Byte.x02] `prefix_of` resource5 ∧
  fst (run unit 900 (tunneled (quiet_range_server resource5)) no_faults
         example_config "42" tt fs_staged2) = None ∧
  fs (snd (run unit 900 (tunneled (quiet_range_server resource5)) no_faults
             example_config "42" tt fs_staged2)) =
    <["upgrade" := resource5]> (delete "upgrade.42.part" fs_staged2).
Proof.
  assert (Hc : tunneled (quiet_range_server resource5) example_config tt 900 =
               Ok (quiet_range_server resource5)) by reflexivity.
  assert (Hf : fs_staged2 !! "upgrade" = None) by reflexivity.
  assert (Hp : [Byte.x01; Byte.x02] `prefix_of` resource5)
    by (by exists [Byte.x03; Byte.x04; Byte.x05]).
  destruct (DownloadUpgrade_resume_completes unit 900
              (tunneled (quiet_range_server resource5)) no_faults
              example_config "42" tt resource5 fs_staged2 _ _ _
              Hc quiet_range_server_honours quiet_range_server_fault_free
              Hf Hp (surjective_pairing _)) as [T1 T2].
  split_and!; [exact Hc | exact Hf | exact Hp | exact T1 | exact T2].
Defined.

Lemma DownloadUpgrade_reruns_complete_witness :
  resumable example_config "42" resource5 fs_staged2 ∧
  resumable example_config "42" resource5
    (reruns unit 900 two_attempts example_config "42" tt fs_staged2) ∧
  fst (run unit 900 (tunneled (quiet_range_server resource5)) no_faults
         example_config "42" tt
         (reruns unit 900 two_attempts example_config "42" tt fs_staged2)) =
    None ∧
  fs (snd (run unit 900 (tunneled (quiet_range_server resource5)) no_faults
             example_config "42" tt
             (reruns unit 900 two_attempts example_config "42" tt
                fs_staged2))) !! "upgrade" = Some resource5.
Proof.
  assert (Hall : ∀ mk' env' c', (mk', env') ∈ two_attempts →
            mk' example_config tt 900%Z = Ok c' →
            honours_range c' (UpgradeDownloadUrl example_config) resource5).
  { intros mk' env' c' Hin Hmk. unfold two_attempts in Hin.
    apply elem_of_cons in Hin. destruct Hin as [[= -> ->] | Hin].
    - injection Hmk as <-. exact quiet_range_server_honours.
    - apply list_elem_of_singleton in Hin. injection Hin as -> ->.
      discriminate Hmk. }
  assert (Hf : resumable example_config "42" resource5 fs_staged2).
  { right. split; [reflexivity |].
    by exists [Byte.x03; Byte.x04; Byte.x05]. }
  destruct (DownloadUpgrade_reruns_complete unit 900 two_attempts
              (tunneled (quiet_range_server resource5)) no_faults
              example_config "42" tt resource5 fs_staged2 _ _ _
              Hall Hf eq_refl quiet_range_server_honours
              quiet_range_server_fault_free (surjective_pairing _))
    as (T1 & T2 & T3).
  split_and!; [exact Hf | exact T1 | exact T2 | exact T3].
Defined.

Lemma DownloadUpgrade_416_empty_finalizes_witness :
  fs_staged5 !! "upgrade" = None ∧
  Do (quiet_range_server resource5)
    (resume_request "https://example.org/upgrade" 5) =
    Ok {| StatusCode := StatusRequestedRangeNotSatisfiable;
          Body := {| chunks := []; read_err := None |} |} ∧
  fst (run unit 900 (tunneled (quiet_range_server resource5)) no_faults
         example_config "42" tt fs_staged5) = None ∧
  EvNoticeInfo "client upgrade downloaded bytes: 0"
    ∈ trace (snd (run unit 900 (tunneled (quiet_range_server resource5))
                    no_faults example_config "42" tt fs_staged5)) ∧
  fs (snd (run unit 900 (tunneled (quiet_range_server resource5)) no_faults
             example_config "42" tt fs_staged5)) =
    <["upgrade" := resource5]> (delete "upgrade.42.part" fs_staged5).
Proof.
  assert (Hf : fs_staged5 !! "upgrade" = None) by reflexivity.
  assert (Hdo : Do (quiet_range_server resource5)
                  (resume_request "https://example.org/upgrade" 5) =
                Ok {| StatusCode := StatusRequestedRangeNotSatisfiable;
                      Body := {| chunks := []; read_err := None |} |})
    by (vm_compute; reflexivity).
  destruct (DownloadUpgrade_416_empty_finalizes unit 900
              (tunneled (quiet_range_server resource5)) no_faults
              example_config "42" tt fs_staged5
              (quiet_range_server resource5) _ _ _
              Hf eq_refl eq_refl eq_refl eq_refl Hdo eq_refl eq_refl eq_refl
              eq_refl eq_refl (surjective_pairing _)) as (T1 & T2 & T3).
  split_and!; [exact Hf | exact Hdo | exact T1 | exact T2 | exact T3].
Defined.
